(** * GL Recovery Dashboard: the join, filter and aggregation pipeline

    A shallow embedding of [dashboard_cloud.py].  The script is a Streamlit
    page: every interaction re-runs it from the top against the two uploaded
    workbooks and the widget state of the session.  One run is modelled as a
    function from the uploads and the widget state to the widgets the run
    shows and the tables it computes.

    Conventions of the model.
    - A spreadsheet cell is a number, a text, or empty (pandas' NaN).  Numbers
      are exact integers: amounts are counted in the sheet's smallest unit, so
      sums are exact; binary floating point rounding is outside the model.
    - Text is a [string] of one-byte characters.
    - A Python exception is a value [Raise e]; the widgets shown before it
      stay on the page.
    - What pandas, [re] and Streamlit do inside their own code is either
      written out (group-by, [isin], [unique], [to_csv]) or, for the two
      grammars that are too large to write out (numeric literals, regular
      expressions), taken from the class [Library]. *)

From Stdlib Require Import ZArith Ascii.
From Stdlib Require String.
From stdpp Require Import base option list gmap strings pretty sorting.

Local Open Scope Z_scope.
Set Warnings "-clear-no-such-hyp".

(** ** Values *)

Module Py.

(** A cell of a sheet, and so a value of a DataFrame column.  [NaN] is the
    empty cell.  As a key of a [dict] it is the one [np.nan] object that
    pandas leaves in a column of objects, so that an empty code finds the
    entry of an empty key. *)
Inductive cell : Type :=
| Num (z : Z)
| Text (s : string)
| NaN.

#[global] Instance cell_eq_dec : EqDecision cell.
Proof. solve_decision. Defined.

Definition cell_to_sum (c : cell) : Z + string + unit :=
  match c with
  | Num z => inl (inl z)
  | Text s => inl (inr s)
  | NaN => inr tt
  end.

Definition cell_of_sum (x : Z + string + unit) : cell :=
  match x with
  | inl (inl z) => Num z
  | inl (inr s) => Text s
  | inr _ => NaN
  end.

#[global] Instance cell_countable : Countable cell.
Proof.
  apply (inj_countable' cell_to_sum cell_of_sum).
  intros []; reflexivity.
Defined.

(** [pd.isna] *)
Definition isna (c : cell) : bool :=
  match c with NaN => true | _ => false end.

(** [str(x)], which is also what [astype(str)] and an f-string do to a cell.
    A number prints as a Python [int] does; the [.0] that a column of floats
    adds is outside the model. *)
Definition str (c : cell) : string :=
  match c with
  | Num z => pretty z
  | Text s => s
  | NaN => "nan"
  end.

(** The exceptions the script can meet. *)
Inductive exc : Type :=
| ExcelError      (* whatever [pd.read_excel] raises on a file it cannot read *)
| IndexError
| KeyError
| TypeError
| ReError.        (* [re.error]: the pattern does not compile *)

Inductive res (A : Type) : Type :=
| Ok (a : A)
| Raise (e : exc).
Arguments Ok {A} a.
Arguments Raise {A} e.

#[global] Instance res_ret : MRet res := λ A a, Ok a.
#[global] Instance res_bind : MBind res := λ A B f m,
  match m with
  | Ok a => f a
  | Raise e => Raise e
  end.

(** [x in xs] for a list, and [Series.isin]: both find NaN in a list that
    holds NaN. *)
Definition isin `{EqDecision A} (x : A) (values : list A) : bool :=
  bool_decide (x ∈ values).

(** [Series.unique()]: the values in order of first appearance. *)
Fixpoint unique_from `{EqDecision A} (seen : list A) (xs : list A) : list A :=
  match xs with
  | [] => []
  | x :: xs' =>
      if isin x seen then unique_from seen xs'
      else x :: unique_from (x :: seen) xs'
  end.
Definition unique `{EqDecision A} (xs : list A) : list A := unique_from [] xs.

(** [Series.nunique()]: NaN is not counted. *)
Definition nunique (xs : list cell) : nat :=
  length (unique (filter (λ c, isna c = false) xs)).

(** [Series.count()]: the number of cells that are not NaN. *)
Definition count (xs : list cell) : nat :=
  length (filter (λ c, isna c = false) xs).

(** Insertion into a list sorted by [le], after the elements that are not
    above [x]: the sort built on it is stable. *)
Fixpoint insert_sorted {A} (le : A → A → bool) (x : A) (l : list A) : list A :=
  match l with
  | [] => [x]
  | y :: l' => if le y x then y :: insert_sorted le x l' else x :: y :: l'
  end.
Definition sort_by {A} (le : A → A → bool) (l : list A) : list A :=
  foldr (insert_sorted le) [] (reverse l).

(** Character order of text, as Python compares [str]. *)
Definition text_le (a b : string) : bool :=
  match String.compare a b with Gt => false | _ => true end.

(** [a <= b] between two values.  Python raises [TypeError] between a text
    and a number; against NaN every comparison of numbers is false. *)
Definition le (a b : cell) : res bool :=
  match a, b with
  | Num x, Num y => Ok (bool_decide (x ≤ y))
  | Text x, Text y => Ok (text_le x y)
  | Text _, _ | _, Text _ => Raise TypeError
  | _, _ => Ok false
  end.

Definition is_text (c : cell) : bool :=
  match c with Text _ => true | _ => false end.

(** [sorted(xs)].  A list that mixes text with numbers or NaN raises
    [TypeError] as soon as two of them are compared, which any list of two or
    more does; otherwise the comparisons succeed.  Where NaN is among numbers
    the result is a permutation whose order depends on the sorting algorithm;
    the model fixes one. *)
Definition sorted (xs : list cell) : res (list cell) :=
  if bool_decide (length xs ≤ 1)%nat then Ok xs
  else if forallb is_text xs || forallb (λ c, negb (is_text c)) xs
  then Ok (sort_by (λ a b, match le a b with Ok t => t | Raise _ => false end) xs)
  else Raise TypeError.

(** The order in which a group-by lists its keys: pandas sorts them, numbers
    before text when a column mixes the two. *)
Definition key_le (a b : cell) : bool :=
  match a, b with
  | Num x, Num y => bool_decide (x ≤ y)
  | Num _, _ => true
  | Text x, Text y => text_le x y
  | Text _, Num _ => false
  | Text _, NaN => true
  | NaN, NaN => true
  | NaN, _ => false
  end.

End Py.

Import Py.

(** ** Text *)

Module Str.

(** The characters [str.strip()] removes, among one-byte characters. *)
Definition is_space (a : ascii) : bool :=
  let n := nat_of_ascii a in
  bool_decide (9 ≤ n ≤ 13 ∨ 28 ≤ n ≤ 32)%nat.

Fixpoint lstrip (s : string) : string :=
  match s with
  | String a s' => if is_space a then lstrip s' else s
  | EmptyString => EmptyString
  end.
Definition rstrip (s : string) : string := String.rev (lstrip (String.rev s)).
Definition strip (s : string) : string := rstrip (lstrip s).


(** The characters that have a meaning of their own in a [re] pattern. *)
Definition is_meta (a : ascii) : bool :=
  bool_decide (a ∈ String.list_ascii_of_string ".^$*+?{}[]\|()").


(** A pattern of plain characters and dots, the one special character that
    stands for any character but a line feed. *)
Definition dot : ascii := ascii_of_nat 46.
Definition line_feed : ascii := ascii_of_nat 10.

Fixpoint is_dotted (p : string) : bool :=
  match p with
  | String a p' => (bool_decide (a = dot) || negb (is_meta a)) && is_dotted p'
  | EmptyString => true
  end.

(** Such a pattern matches at the start of [s]. *)
Fixpoint matches_here (p s : string) : bool :=
  match p, s with
  | EmptyString, _ => true
  | String _ _, EmptyString => false
  | String a p', String b s' =>
      (if bool_decide (a = dot) then negb (bool_decide (b = line_feed))
       else bool_decide (a = b))
      && matches_here p' s'
  end.

(** Such a pattern matches somewhere in [s]. *)
Fixpoint matches_somewhere (p s : string) : bool :=
  matches_here p s ||
  match s with
  | String _ s' => matches_somewhere p s'
  | EmptyString => false
  end.

(** [s[:n]] *)
Fixpoint take (n : nat) (s : string) : string :=
  match n, s with
  | S n', String a s' => String a (take n' s')
  | _, _ => EmptyString
  end.

End Str.

(** ** The two library grammars the model does not write out *)

Class Library : Type := {
  (** The number [pd.to_numeric] reads from a text cell, when it reads one. *)
  numeric_literal : string → option Z;
  (** Whether [re.compile(pat)] accepts the pattern. *)
  re_compiles : string → bool;
  (** [re.search(pat, s) is not None], for a pattern that compiles. *)
  re_search : string → string → bool;
  (** A pattern of plain characters and dots compiles, a plain character
      matches itself, and a dot any character but a line feed. *)
  re_dotted_compiles pat : Str.is_dotted pat = true → re_compiles pat = true;
  re_dotted_search pat s :
    Str.is_dotted pat = true → re_search pat s = Str.matches_somewhere pat s
}.

(** ** Loading the workbooks *)

(** The first sheet of a workbook below its header row.  A row that is shorter
    than [ncols] reads as padded with empty cells. *)
Record DataFrame : Type := {
  ncols : nat;
  rows : list (list cell)
}.

(** An uploaded file, seen through [pd.read_excel]. *)
Inductive xlsx : Type :=
| Unreadable
| Workbook (first_sheet : DataFrame).

Definition read_excel (file : xlsx) : res DataFrame :=
  match file with
  | Unreadable => Raise ExcelError
  | Workbook df => Ok df
  end.

Definition cell_at (i : nat) (row : list cell) : cell := nth i row NaN.

(** [df.iloc[:, i]] *)
Definition iloc_col (df : DataFrame) (i : nat) : res (list cell) :=
  if bool_decide (i < ncols df)%nat then Ok (cell_at i <$> rows df)
  else Raise IndexError.

(** [dict(zip(keys, values))]: a later pair replaces an earlier one with the
    same key. *)
Definition dict_zip (keys values : list cell) : gmap cell cell :=
  foldl (λ d kv, <[kv.1 := kv.2]> d) ∅ (zip keys values).

(** ** What a run shows *)

Module St.

(** A table as it is displayed or exported. *)
Record frame : Type := {
  columns : list string;
  body : list (list cell)
}.

(** The elements of the page the model keeps: messages, metrics, tables and
    downloads.  Headers, rules and the layout are left out, and so is the
    clock reading in a download's file name. *)
Inductive element : Type :=
| error (msg : string)
| warning (msg : string)
| info (msg : string)
| success (msg : string)
| metric (label : string) (value : Z)
| write (msg : string)
| dataframe (data : frame)
| download_button (label : string) (data : string) (file_stem : string).

(** A piece of the script: the elements it adds to the page, and its value or
    the exception that ended the run. *)
Record run (A : Type) : Type := Run {
  shown : list element;
  result : res A
}.
Arguments Run {A} shown result.
Arguments shown {A} r.
Arguments result {A} r.

#[global] Instance run_ret : MRet run := λ A a, Run [] (Ok a).
#[global] Instance run_bind : MBind run := λ A B f m,
  match result m with
  | Ok a => Run (shown m ++ shown (f a)) (result (f a))
  | Raise e => Run (shown m) (Raise e)
  end.

Definition show (e : element) : run unit := Run [e] (Ok tt).
Definition lift {A} (r : res A) : run A := Run [] r.

(** The widget state of the session, which the run reads. *)
Inductive page_choice : Type := DashboardHome | QueryEmployee | Settings.

Record session : Type := {
  radio : page_choice;
  checkbox_state : string → bool;   (* by widget key *)
  text_input : string;
  button : bool
}.

(** [col.checkbox(label, value=True, key=key)]: the label is a string field of
    the widget, so a label that is not text raises [TypeError]. *)
Definition checkbox (ss : session) (label : cell) (key : string) : res bool :=
  match label with
  | Text _ => Ok (checkbox_state ss key)
  | _ => Raise TypeError
  end.

End St.

Import St.

Section Script.
Context `{Library}.

(** ** Helper functions of the script *)

Definition load_gl_dump_from_upload (file : xlsx) : run (option DataFrame) :=
  match read_excel file with
  | Ok df => mret (Some df)
  | Raise _ => show (error "❌ Error reading GL dump file");; mret None
  end.

Definition load_gl_descriptions_from_upload (file : xlsx)
  : run (gmap cell cell * gmap cell cell) :=
  let body : res (gmap cell cell * gmap cell cell) :=
    df ← read_excel file;
    keys ← iloc_col df 0;
    names ← iloc_col df 1;
    let gl_name_dict := dict_zip keys names in
    gl_category_dict ←
      (if bool_decide (3 ≤ ncols df)%nat
       then cats ← iloc_col df 2; Ok (dict_zip keys cats)
       else Ok ∅);
    Ok (gl_name_dict, gl_category_dict) in
  match body with
  | Ok dicts => mret dicts
  | Raise _ => show (error "❌ Error reading GL Description file");; mret (∅, ∅)
  end.

Definition get_gl_name (gl_code : cell) (gl_dict : gmap cell cell) : cell :=
  default (Text "Unknown GL") (gl_dict !! gl_code).

Definition get_gl_category (gl_code : cell) (gl_cat_dict : gmap cell cell) : cell :=
  default (Text "Uncategorized") (gl_cat_dict !! gl_code).

(** [pd.to_numeric(x, errors='coerce')] on one cell: [None] is NaN. *)
Definition to_numeric (c : cell) : option Z :=
  match c with
  | Num z => Some z
  | Text s => numeric_literal s
  | NaN => None
  end.

(** A row of [df_copy] once the five named columns are set. *)
Record wide : Type := {
  w_GL_Code : cell;
  w_Order : cell;
  w_Amount : option Z;
  w_GL_Description : cell;
  w_Category : cell
}.

(** A row of the normalized table. *)
Record txn : Type := {
  GL_Code : cell;
  GL_Description : cell;
  Category : cell;
  Order : cell;
  Amount : Z
}.

Definition gl_col : nat := 1.
Definition order_col : nat := 6.
Definition amount_col : nat := 12.

(** [df_copy[i]] after the columns were renamed to [range(ncols)]. *)
Definition has_col (df : DataFrame) (i : nat) : res unit :=
  if bool_decide (i < ncols df)%nat then Ok tt else Raise KeyError.

Definition set_columns (gl_name_dict gl_category_dict : gmap cell cell)
    (row : list cell) : wide :=
  let code := cell_at gl_col row in
  {| w_GL_Code := code;
     w_Order := cell_at order_col row;
     w_Amount := to_numeric (cell_at amount_col row);
     w_GL_Description := get_gl_name code gl_name_dict;
     w_Category := get_gl_category code gl_category_dict |}.

(** [dropna(subset=['Amount'])] followed by the selection of the five
    columns. *)
Definition dropna_Amount (df_copy : list wide) : list txn :=
  omap (λ w, a ← w_Amount w;
             Some {| GL_Code := w_GL_Code w;
                     GL_Description := w_GL_Description w;
                     Category := w_Category w;
                     Order := w_Order w;
                     Amount := a |}) df_copy.

Definition process_gl_data (df : DataFrame)
    (gl_name_dict gl_category_dict : gmap cell cell) : res (list txn) :=
  _ ← has_col df gl_col;
  _ ← has_col df order_col;
  _ ← has_col df amount_col;
  let df_copy := set_columns gl_name_dict gl_category_dict <$> rows df in
  Ok (dropna_Amount df_copy).

End Script.

(** ** Aggregation *)

Definition sum_Z (zs : list Z) : Z := foldr Z.add 0 zs.

(** [df.groupby(keys)] with the defaults [sort=True, dropna=True]: a row
    whose key has an empty cell is in no group, and the groups come in the
    order of their keys.  [key r] is [None] for such a row. *)
Definition groupby `{EqDecision K} (key : txn → option K) (kle : K → K → bool)
    (df : list txn) : list (K * list txn) :=
  (λ k, (k, filter (λ r, key r = Some k) df)) <$>
    sort_by kle (unique (omap key df)).

Definition present (c : cell) : option cell :=
  if isna c then None else Some c.

Definition lex_le (a b : cell * cell * cell) : bool :=
  let '(a1, a2, a3) := a in
  let '(b1, b2, b3) := b in
  if bool_decide (a1 = b1)
  then (if bool_decide (a2 = b2) then key_le a3 b3 else key_le a2 b2)
  else key_le a1 b1.

Definition gl_key (r : txn) : option (cell * cell * cell) :=
  c ← present (GL_Code r);
  d ← present (GL_Description r);
  k ← present (Category r);
  Some (c, d, k).

(** A row of the summary by GL code, under its final column names. *)
Record gl_row : Type := {
  GL_Code' : cell;                (* 'GL Code' *)
  GL_Description' : cell;         (* 'GL Description' *)
  Category' : cell;               (* 'Category' *)
  Total_Amount : Z;               (* 'Total Amount (AED)' *)
  Number_of_Records : nat         (* 'Number of Records' *)
}.

(** [final_filtered.groupby(['GL_Code', 'GL_Description', 'Category'])
      .agg({'Amount': 'sum', 'Order': 'count'}).reset_index()]
    and then [sort_values('Total Amount (AED)', ascending=False)].  The model
    sorts stably, so rows with equal totals stay in the order of their keys;
    pandas promises no order among them. *)
Definition gl_groups (final_filtered : list txn) : list gl_row :=
  (λ g : cell * cell * cell * list txn,
     let '(c, d, k, group) := g in
     {| GL_Code' := c; GL_Description' := d; Category' := k;
        Total_Amount := sum_Z (Amount <$> group);
        Number_of_Records := count (Order <$> group) |})
  <$> groupby gl_key lex_le final_filtered.

Definition gl_summary (final_filtered : list txn) : list gl_row :=
  sort_by (λ a b, bool_decide (Total_Amount b ≤ Total_Amount a))
          (gl_groups final_filtered).

(** A row of the summary by order, under its final column names. *)
Record order_row : Type := {
  Order_IO : cell;                (* 'Order/IO' *)
  Total_Amount' : Z;              (* 'Total Amount (AED)' *)
  Number_of_GLs : nat             (* 'Number of GLs' *)
}.

(** [final_filtered.groupby('Order')
      .agg({'Amount': 'sum', 'GL_Code': 'count'}).reset_index()]
    and then [sort_values('Total Amount (AED)', ascending=False)]. *)
Definition order_groups (final_filtered : list txn) : list order_row :=
  (λ g : cell * list txn,
     {| Order_IO := g.1;
        Total_Amount' := sum_Z (Amount <$> g.2);
        Number_of_GLs := count (GL_Code <$> g.2) |})
  <$> groupby (λ r, present (Order r)) key_le final_filtered.

Definition order_summary (final_filtered : list txn) : list order_row :=
  sort_by (λ a b, bool_decide (Total_Amount' b ≤ Total_Amount' a))
          (order_groups final_filtered).

(** The two group-bys of the query page; neither is sorted afterwards. *)
Record category_row : Type := {
  cs_Category : cell;             (* 'Category' *)
  cs_Amount : Z;                  (* 'Amount (AED)' *)
  cs_Number_of_GLs : nat          (* 'Number of GLs' *)
}.

Definition category_summary (filtered_data : list txn) : list category_row :=
  (λ g : cell * list txn,
     {| cs_Category := g.1;
        cs_Amount := sum_Z (Amount <$> g.2);
        cs_Number_of_GLs := count (GL_Code <$> g.2) |})
  <$> groupby (λ r, present (Category r)) key_le filtered_data.

Record detail_row : Type := {
  d_GL_Code : cell;               (* 'GL Code' *)
  d_GL_Description : cell;        (* 'GL Description' *)
  d_Category : cell;              (* 'Category' *)
  d_Amount : Z                    (* 'Amount (AED)' *)
}.

Definition detailed (filtered_data : list txn) : list detail_row :=
  (λ g : cell * cell * cell * list txn,
     let '(c, d, k, group) := g in
     {| d_GL_Code := c; d_GL_Description := d; d_Category := k;
        d_Amount := sum_Z (Amount <$> group) |})
  <$> groupby gl_key lex_le filtered_data.

(** The tables as displayed and exported. *)
Definition txn_frame (df : list txn) : frame :=
  {| columns := ["GL_Code"; "GL_Description"; "Category"; "Order"; "Amount"];
     body := (λ r, [GL_Code r; GL_Description r; Category r; Order r;
                    Num (Amount r)]) <$> df |}.

Definition gl_summary_frame (t : list gl_row) : frame :=
  {| columns := ["GL Code"; "GL Description"; "Category";
                 "Total Amount (AED)"; "Number of Records"];
     body := (λ r, [GL_Code' r; GL_Description' r; Category' r;
                    Num (Total_Amount r);
                    Num (Z.of_nat (Number_of_Records r))]) <$> t |}.

Definition order_summary_frame (t : list order_row) : frame :=
  {| columns := ["Order/IO"; "Total Amount (AED)"; "Number of GLs"];
     body := (λ r, [Order_IO r; Num (Total_Amount' r);
                    Num (Z.of_nat (Number_of_GLs r))]) <$> t |}.

Definition category_summary_frame (t : list category_row) : frame :=
  {| columns := ["Category"; "Amount (AED)"; "Number of GLs"];
     body := (λ r, [cs_Category r; Num (cs_Amount r);
                    Num (Z.of_nat (cs_Number_of_GLs r))]) <$> t |}.

Definition detailed_frame (t : list detail_row) : frame :=
  {| columns := ["GL Code"; "GL Description"; "Category"; "Amount (AED)"];
     body := (λ r, [d_GL_Code r; d_GL_Description r; d_Category r;
                    Num (d_Amount r)]) <$> t |}.

(** ** CSV export *)

Module Csv.

Definition comma : ascii := ascii_of_nat 44.
Definition dquote : ascii := ascii_of_nat 34.
Definition LF : ascii := ascii_of_nat 10.
Definition CR : ascii := ascii_of_nat 13.

(** The characters that make the writer quote a field. *)
Definition special (a : ascii) : bool :=
  bool_decide (a ∈ [comma; dquote; LF; CR]).

Fixpoint has_special (s : string) : bool :=
  match s with
  | String a s' => special a || has_special s'
  | EmptyString => false
  end.

(** Inside quotes a quote character is written twice. *)
Fixpoint double_quotes (s : string) : string :=
  match s with
  | String a s' =>
      if bool_decide (a = dquote)
      then String dquote (String dquote (double_quotes s'))
      else String a (double_quotes s')
  | EmptyString => EmptyString
  end.

(** One field under [QUOTE_MINIMAL]. *)
Definition quote (s : string) : string :=
  if has_special s
  then String dquote (double_quotes s +:+ String dquote EmptyString)
  else s.

(** The text of a cell: an empty cell is written as nothing ([na_rep='']). *)
Definition field (c : cell) : string :=
  match c with
  | Num z => pretty z
  | Text s => quote s
  | NaN => EmptyString
  end.

Fixpoint join (fields : list string) : string :=
  match fields with
  | [] => EmptyString
  | [f] => f
  | f :: rest => f +:+ String comma (join rest)
  end.

(** One record and its line end.  A record that is a single empty field is
    written as a pair of quotes. *)
Definition record (fields : list string) : string :=
  match fields with
  | [EmptyString] => String dquote (String dquote (String LF EmptyString))
  | _ => join fields +:+ String LF EmptyString
  end.

Fixpoint records (rows : list (list string)) : string :=
  match rows with
  | [] => EmptyString
  | r :: rest => record r +:+ records rest
  end.

(** [df.to_csv(index=False)] *)
Definition to_csv (df : frame) : string :=
  record (map quote (columns df)) +:+ records (map (map field) (body df)).

End Csv.

(** ** The pages *)

Section Pages.
Context `{Library}.

(** The category checkboxes of a page:
    [for idx, cat in enumerate(all_categories):
         if col.checkbox(cat, value=True, key=f"<prefix>{idx}"): ...append(cat)] *)
Fixpoint category_checkboxes (ss : session) (prefix : string) (idx : nat)
    (cats : list cell) : res (list cell) :=
  match cats with
  | [] => Ok []
  | cat :: rest =>
      ticked ← checkbox ss cat (prefix +:+ pretty idx);
      selected ← category_checkboxes ss prefix (S idx) rest;
      Ok (if ticked : bool then cat :: selected else selected)
  end.

(** [if not selected: selected = everything] *)
Definition or_all {A} (selected everything : list A) : list A :=
  match selected with [] => everything | _ => selected end.

Definition filter_isin (column : txn → cell) (values : list cell)
    (df : list txn) : list txn :=
  filter (λ r, isin (column r) values = true) df.

Definition filter_by_category (ss : session) (prefix : string)
    (all_categories : list cell) (processed_data : list txn) : res (list txn) :=
  selected_categories ← category_checkboxes ss prefix 0 all_categories;
  let selected_categories := or_all selected_categories all_categories in
  Ok (filter_isin Category selected_categories processed_data).

(** [a == b] on two cells: NaN equals nothing. *)
Definition cell_eq (a b : cell) : bool :=
  negb (isna a) && bool_decide (a = b).

(** [series.iloc[0]] *)
Definition iloc0 {A} (xs : list A) : res A :=
  match xs with
  | x :: _ => Ok x
  | [] => Raise IndexError
  end.

(** [x[:30]], which only a text supports. *)
Definition slice30 (x : cell) : res string :=
  match x with
  | Text s => Ok (Str.take 30 s)
  | _ => Raise TypeError
  end.

(** The GL checkboxes of the dashboard.  The keys [gl_<code>] are distinct,
    because the codes are and [sorted] let them through. *)
Fixpoint gl_checkboxes (ss : session) (filtered_by_cat : list txn)
    (all_gls : list cell) : res (list cell) :=
  match all_gls with
  | [] => Ok []
  | gl_code :: rest =>
      gl_name ← iloc0 (GL_Description <$>
                         filter (λ r, cell_eq (GL_Code r) gl_code = true) filtered_by_cat);
      short ← slice30 gl_name;
      ticked ← checkbox ss (Text (str gl_code +:+ " - " +:+ short))
                        ("gl_" +:+ str gl_code);
      selected ← gl_checkboxes ss filtered_by_cat rest;
      Ok (if ticked : bool then gl_code :: selected else selected)
  end.

(** The selection of GL codes of the dashboard, from [all_gls = sorted(...)]
    to [final_filtered]. *)
Definition filter_by_gl (ss : session) (filtered_by_cat : list txn)
    : res (list txn) :=
  all_gls ← sorted (unique (GL_Code <$> filtered_by_cat));
  selected_gls ← gl_checkboxes ss filtered_by_cat all_gls;
  let selected_gls := or_all selected_gls all_gls in
  Ok (filter_isin GL_Code selected_gls filtered_by_cat).

(** What a run has computed when it ends normally. *)
Inductive tables : Type :=
| HomeTables (filtered_by_cat final_filtered : list txn)
             (gl_summary : list gl_row) (order_summary : list order_row)
| QueryTables (filtered_by_cat_query : list txn)
              (filtered_data : option (list txn))
| SettingsTables.

Definition dashboard_home (ss : session) (processed_data : list txn)
    (all_categories : list cell) : run tables :=
  filtered_by_cat ← lift (filter_by_category ss "cat_" all_categories processed_data);
  show (metric "📊 GL Codes" (Z.of_nat (nunique (GL_Code <$> filtered_by_cat))));;
  show (metric "👥 Orders/IOs" (Z.of_nat (nunique (Order <$> filtered_by_cat))));;
  show (metric "💵 Total Amount (AED)" (sum_Z (Amount <$> filtered_by_cat)));;
  show (metric "📈 Records" (Z.of_nat (length filtered_by_cat)));;
  final_filtered ← lift (filter_by_gl ss filtered_by_cat);
  let gl_summary := gl_summary final_filtered in
  show (dataframe (gl_summary_frame gl_summary));;
  let csv_gl := Csv.to_csv (gl_summary_frame gl_summary) in
  show (download_button "📥 Download GL Summary as CSV" csv_gl "GL_Summary_");;
  let order_summary := order_summary final_filtered in
  show (dataframe (order_summary_frame order_summary));;
  let csv_order := Csv.to_csv (order_summary_frame order_summary) in
  show (download_button "📥 Download Order Summary as CSV" csv_order "Order_Summary_");;
  mret (HomeTables filtered_by_cat final_filtered gl_summary order_summary).

(** [series.astype(str).str.contains(pat, na=False)]: the pattern is a regular
    expression, compiled before it is applied to the cells. *)
Definition str_contains (pat : string) (series : list cell) : res (list bool) :=
  if re_compiles pat then Ok ((λ x, re_search pat (str x)) <$> series)
  else Raise ReError.

(** [df[mask]] *)
Definition mask_rows {A} (df : list A) (mask : list bool) : list A :=
  fst <$> filter (λ p, p.2 = true) (zip df mask).

Definition query_employee (ss : session) (processed_data : list txn)
    (all_categories : list cell) : run tables :=
  filtered_by_cat_query ←
    lift (filter_by_category ss "query_cat_" all_categories processed_data);
  let order_input := text_input ss in
  if button ss then
    if bool_decide (Str.strip order_input ≠ EmptyString) then
      mask ← lift (str_contains (Str.strip order_input)
                                (Order <$> filtered_by_cat_query));
      let filtered_data := mask_rows filtered_by_cat_query mask in
      if bool_decide (filtered_data ≠ []) then
        show (success ("✅ Found " +:+ pretty (length filtered_data)
                       +:+ " records for Order: " +:+ order_input));;
        show (metric "Total Amount (AED)" (sum_Z (Amount <$> filtered_data)));;
        show (metric "Number of GLs" (Z.of_nat (nunique (GL_Code <$> filtered_data))));;
        show (metric "Number of Categories"
                     (Z.of_nat (nunique (Category <$> filtered_data))));;
        show (dataframe (category_summary_frame (category_summary filtered_data)));;
        let detailed := detailed filtered_data in
        show (dataframe (detailed_frame detailed));;
        let csv_detail := Csv.to_csv (detailed_frame detailed) in
        show (download_button "📥 Download Details as CSV" csv_detail
                              ("Recoveries_" +:+ order_input +:+ "_"));;
        mret (QueryTables filtered_by_cat_query (Some filtered_data))
      else
        show (warning ("⚠️ No records found for Order: " +:+ order_input));;
        mret (QueryTables filtered_by_cat_query (Some filtered_data))
    else
      show (warning "⚠️ Please enter an Order/IO");;
      mret (QueryTables filtered_by_cat_query None)
  else mret (QueryTables filtered_by_cat_query None).

(** [", ".join(xs)], which takes text only. *)
Fixpoint join_comma (xs : list cell) : res string :=
  match xs with
  | [] => Ok EmptyString
  | [Text s] => Ok s
  | Text s :: rest => tail ← join_comma rest; Ok (s +:+ ", " +:+ tail)
  | _ :: _ => Raise TypeError
  end.

Definition settings (processed_data : list txn) (all_categories : list cell)
    : run tables :=
  show (info "📊 Data Summary:");;
  show (metric "Total GL Codes" (Z.of_nat (nunique (GL_Code <$> processed_data))));;
  show (metric "Total Orders" (Z.of_nat (nunique (Order <$> processed_data))));;
  show (metric "Total Categories" (Z.of_nat (length all_categories)));;
  show (metric "Total Records" (Z.of_nat (length processed_data)));;
  found ← lift (join_comma all_categories);
  show (write found);;
  show (write "First 10 rows of processed GL data:");;
  show (dataframe (txn_frame (take 10 processed_data)));;
  mret SettingsTables.

(** ** The script *)

(** What a run computed past the guard [gl_dump is not None]. *)
Record computed : Type := {
  processed_data : list txn;
  all_categories : list cell;
  page_tables : tables
}.

Definition Uncategorized : cell := Text "Uncategorized".

(** The block under the guard [if gl_dump is not None:]. *)
Definition pipeline (gl_dump : DataFrame)
    (gl_name_dict gl_category_dict : gmap cell cell) (ss : session)
    : run computed :=
  processed_data ← lift (process_gl_data gl_dump gl_name_dict gl_category_dict);
  all_categories ←
    lift (sorted (filter (λ cat, cat ≠ Uncategorized)
                         (unique (Category <$> processed_data))));
  t ← match radio ss with
      | DashboardHome => dashboard_home ss processed_data all_categories
      | QueryEmployee => query_employee ss processed_data all_categories
      | Settings => settings processed_data all_categories
      end;
  mret {| processed_data := processed_data;
          all_categories := all_categories;
          page_tables := t |}.

Definition main (uploaded_gl_dump uploaded_gl_desc : option xlsx) (ss : session)
    : run (option computed) :=
  match uploaded_gl_dump, uploaded_gl_desc with
  | Some dump_file, Some desc_file =>
      gl_dump ← load_gl_dump_from_upload dump_file;
      dicts ← load_gl_descriptions_from_upload desc_file;
      let '(gl_name_dict, gl_category_dict) := dicts in
      match gl_dump with
      | Some gl_dump =>
          c ← pipeline gl_dump gl_name_dict gl_category_dict ss;
          mret (Some c)
      | None => mret None
      end
  | _, _ =>
      show (warning "⚠️ Please upload both GL_dump.xlsx and GL_Description.xlsx files to get started!");;
      show (info "
    **How to use this cloud version:**
    1. Upload GL_dump.xlsx file (left sidebar)
    2. Upload GL_Description.xlsx file (left sidebar)
    3. Dashboard will load automatically
    4. Use filters and queries as needed
    5. Download reports as CSV
    ");;
      mret None
  end.

End Pages.

(** ** A small library instance and sample sheets *)

Module Sample.

Definition digit (a : ascii) : option Z :=
  let n := nat_of_ascii a in
  if bool_decide (48 ≤ n ≤ 57)%nat then Some (Z.of_nat n - 48) else None.

Fixpoint digits (acc : Z) (s : string) : option Z :=
  match s with
  | EmptyString => Some acc
  | String a s' => d ← digit a; digits (10 * acc + d) s'
  end.

(** Reads the whole numbers written in digits, and nothing else. *)
Definition whole_number (s : string) : option Z :=
  match s with
  | EmptyString => None
  | _ => digits 0 s
  end.

(** An instance that reads whole numbers, and compiles the patterns of
    plain characters and dots only. *)
Definition plain_and_dots : Library := {|
  numeric_literal := whole_number;
  re_compiles := Str.is_dotted;
  re_search := Str.matches_somewhere;
  re_dotted_compiles := λ pat Hpat, Hpat;
  re_dotted_search := λ pat s _, eq_refl
|}.

(** A dump row: GL code in column 1, order in column 6, amount in
    column 12. *)
Definition dump_row (gl order amount : cell) : list cell :=
  [NaN; gl; NaN; NaN; NaN; NaN; order; NaN; NaN; NaN; NaN; NaN; amount].

Definition dump (rows : list (list cell)) : xlsx :=
  Workbook {| ncols := 13; rows := rows |}.

Definition descriptions (rows : list (list cell)) : xlsx :=
  Workbook {| ncols := 3; rows := rows |}.

(** The session of a first visit: every checkbox ticked, nothing typed. *)
Definition first_visit (p : page_choice) : session :=
  {| radio := p; checkbox_state := λ _, true;
     text_input := EmptyString; button := false |}.

Definition searching (input : string) : session :=
  {| radio := QueryEmployee; checkbox_state := λ _, true;
     text_input := input; button := true |}.

End Sample.

(** * Properties *)

(** ** Lists: [unique] and [sort_by] *)

Section ListFacts.
Context `{EqDecision A}.
Implicit Types (x : A) (l seen : list A).

Lemma isin_true x l : isin x l = true ↔ x ∈ l.
Proof. unfold isin. apply bool_decide_eq_true. Qed.

Lemma isin_false x l : isin x l = false ↔ x ∉ l.
Proof. unfold isin. apply bool_decide_eq_false. Qed.

Lemma elem_of_unique_from x seen l :
  x ∈ unique_from seen l ↔ x ∈ l ∧ x ∉ seen.
Proof.
  revert seen. induction l as [|y l IH]; intros seen; simpl.
  - set_solver.
  - destruct (isin y seen) eqn:Hy.
    + apply isin_true in Hy. rewrite IH. set_solver.
    + apply isin_false in Hy. rewrite elem_of_cons, IH.
      destruct (decide (x = y)); set_solver.
Qed.

Lemma elem_of_unique x l : x ∈ unique l ↔ x ∈ l.
Proof. unfold unique. rewrite elem_of_unique_from. set_solver. Qed.

Lemma NoDup_unique_from seen l : NoDup (unique_from seen l).
Proof.
  revert seen. induction l as [|y l IH]; intros seen; simpl.
  - constructor.
  - destruct (isin y seen) eqn:Hy; [apply IH|].
    constructor; [|apply IH].
    rewrite elem_of_unique_from. set_solver.
Qed.

Lemma NoDup_unique l : NoDup (unique l).
Proof. apply NoDup_unique_from. Qed.

End ListFacts.

Section SortFacts.
Context {A : Type} (le : A → A → bool).

Lemma insert_sorted_perm x l : insert_sorted le x l ≡ₚ x :: l.
Proof.
  induction l as [|y l IH]; simpl; [done|].
  destruct (le y x); [|done].
  rewrite IH. apply Permutation_swap.
Qed.

Lemma foldr_insert_sorted_perm l : foldr (insert_sorted le) [] l ≡ₚ l.
Proof.
  induction l as [|x l IH]; simpl; [done|].
  by rewrite insert_sorted_perm, IH.
Qed.

Lemma sort_by_perm l : sort_by le l ≡ₚ l.
Proof.
  unfold sort_by. rewrite foldr_insert_sorted_perm. apply reverse_Permutation.
Qed.

Lemma elem_of_sort_by x l : x ∈ sort_by le l ↔ x ∈ l.
Proof. by rewrite sort_by_perm. Qed.

(** With a total and transitive order, the result is sorted: every element
    is below all the later ones. *)
Hypothesis le_total : ∀ x y, le x y = true ∨ le y x = true.
Hypothesis le_trans : ∀ x y z, le x y = true → le y z = true → le x z = true.

Definition below (x y : A) : Prop := le x y = true.

Lemma insert_sorted_sorted x l :
  StronglySorted below l → StronglySorted below (insert_sorted le x l).
Proof.
  induction 1 as [|y l Hl IH Hy]; simpl.
  - repeat constructor.
  - destruct (le y x) eqn:Hyx.
    + constructor; [done|].
      rewrite insert_sorted_perm. constructor; done.
    + assert (below x y) as Hxy by (destruct (le_total x y); [done|congruence]).
      constructor; [by constructor|].
      constructor; [done|].
      eapply Forall_impl; [exact Hy|]. intros z Hz. by eapply le_trans.
Qed.

Lemma sort_by_sorted l : StronglySorted below (sort_by le l).
Proof.
  unfold sort_by. induction (reverse l) as [|x l' IH]; simpl.
  - constructor.
  - by apply insert_sorted_sorted.
Qed.

End SortFacts.

Lemma sum_Z_app (xs ys : list Z) : sum_Z (xs ++ ys) = sum_Z xs + sum_Z ys.
Proof. induction xs as [|x xs IH]; simpl; lia. Qed.


(** ** The lookup builder *)



Lemma load_gl_descriptions_two_columns (df : DataFrame) :
  (2 ≤ ncols df)%nat →
  load_gl_descriptions_from_upload (Workbook df)
  = Run [] (Ok (dict_zip (cell_at 0 <$> rows df) (cell_at 1 <$> rows df),
                if bool_decide (3 ≤ ncols df)%nat
                then dict_zip (cell_at 0 <$> rows df) (cell_at 2 <$> rows df)
                else ∅)).
Proof.
  intros Hcols. unfold load_gl_descriptions_from_upload, iloc_col. simpl.
  rewrite (bool_decide_eq_true_2 (0 < ncols df)%nat) by lia. simpl.
  rewrite (bool_decide_eq_true_2 (1 < ncols df)%nat) by lia. simpl.
  case_bool_decide as H3; simpl; [|done].
  by rewrite (bool_decide_eq_true_2 (2 < ncols df)%nat) by lia.
Qed.

(** A sheet without a second column makes [iloc[:, 1]] raise, which the bare
    [except] turns into the error message and two empty mappings. *)
Lemma load_gl_descriptions_short_sheet (df : DataFrame) :
  (ncols df < 2)%nat →
  load_gl_descriptions_from_upload (Workbook df)
  = Run [error "❌ Error reading GL Description file"] (Ok (∅, ∅)).
Proof.
  destruct df as [n sheet]. simpl. intros Hcols.
  destruct n as [|[|n]]; [reflexivity|reflexivity|lia].
Qed.




(** ** The join *)

Section Join.
Context `{Library}.

(** A dump row whose amount cell coerces to a number. *)
Definition coercible (row : list cell) : Prop :=
  is_Some (to_numeric (cell_at amount_col row)).

#[local] Instance coercible_dec row : Decision (coercible row).
Proof. unfold coercible. apply _. Defined.




Lemma dropna_Amount_rows names cats (sheet : list (list cell)) :
  Forall2 (λ row r,
             to_numeric (cell_at amount_col row) = Some (Amount r)
             ∧ GL_Code r = cell_at gl_col row
             ∧ Order r = cell_at order_col row
             ∧ GL_Description r = get_gl_name (cell_at gl_col row) names
             ∧ Category r = get_gl_category (cell_at gl_col row) cats)
          (filter coercible sheet)
          (dropna_Amount (set_columns names cats <$> sheet)).
Proof.
  unfold dropna_Amount.
  induction sheet as [|row sheet IH]; [constructor|].
  destruct (decide (coercible row)) as [Hrow|Hrow].
  - rewrite filter_cons_True by done. csimpl.
    destruct Hrow as [a Ha]. rewrite Ha. csimpl.
    constructor; [|exact IH]. done.
  - rewrite filter_cons_False by done. csimpl.
    unfold coercible in Hrow. apply eq_None_not_Some in Hrow.
    rewrite Hrow. exact IH.
Qed.

Lemma process_gl_data_Ok df names cats t :
  process_gl_data df names cats = Ok t →
  t = dropna_Amount (set_columns names cats <$> rows df).
Proof.
  unfold process_gl_data, has_col.
  repeat case_bool_decide; simpl; try done.
  by intros [= <-].
Qed.


(** With a readable dump, the run is the description loader followed by the
    block under the guard. *)
Lemma main_readable_dump df desc_file ss :
  main (Some (Workbook df)) (Some desc_file) ss
  = (dicts ← load_gl_descriptions_from_upload desc_file;
     c ← pipeline df dicts.1 dicts.2 ss;
     mret (Some c)).
Proof.
  unfold main, load_gl_dump_from_upload. simpl.
  destruct (load_gl_descriptions_from_upload desc_file) as [els [[names cats]|e]];
    reflexivity.
Qed.


(** The two resolved columns are functions of the GL code. *)
Lemma process_gl_data_row df names cats t r :
  process_gl_data df names cats = Ok t →
  r ∈ t →
  GL_Description r = get_gl_name (GL_Code r) names
  ∧ Category r = get_gl_category (GL_Code r) cats.
Proof.
  intros Ht Hr.
  pose proof (dropna_Amount_rows names cats (rows df)) as Hrows.
  apply process_gl_data_Ok in Ht as ->.
  apply list_elem_of_lookup in Hr as [i Hi].
  destruct (Forall2_lookup_r _ _ _ _ _ Hrows Hi)
    as (row & _ & _ & Hcode & _ & Hname & Hcat).
  by rewrite Hname, Hcat, Hcode.
Qed.


End Join.

(** The example of the specification: one dump row for GL code 4010, order
    30102204 and the amount 1500.50, held as 150050 fils, with the
    description row (4010, "Travel Recovery", "Travel"). *)
Definition travel_dump : DataFrame :=
  {| ncols := 13;
     rows := [Sample.dump_row (Num 4010) (Num 30102204) (Num 150050)] |}.

Definition travel_names : gmap cell cell :=
  dict_zip [Num 4010] [Text "Travel Recovery"].
Definition travel_cats : gmap cell cell :=
  dict_zip [Num 4010] [Text "Travel"].

Definition travel_row : txn :=
  {| GL_Code := Num 4010; GL_Description := Text "Travel Recovery";
     Category := Text "Travel"; Order := Num 30102204; Amount := 150050 |}.





(** A dump with a row whose amount is the text "N/A". *)
Definition dump_with_NA : DataFrame :=
  {| ncols := 13;
     rows := [Sample.dump_row (Num 4010) (Num 30102204) (Num 150050);
              Sample.dump_row (Num 4010) (Num 30103311) (Text "N/A")] |}.

Example NA_row_is_dropped :
  process_gl_data (H := Sample.plain_and_dots) dump_with_NA travel_names travel_cats
  = Ok [travel_row].
Proof. reflexivity. Qed.

(** ** Runs that end normally *)

Lemma res_bind_Ok {A B} (m : res A) (f : A → res B) (b : B) :
  m ≫= f = Ok b → ∃ a, m = Ok a ∧ f a = Ok b.
Proof. destruct m as [a|e]; [|done]. intros Hb. by exists a. Qed.

Lemma run_bind_Ok {A B} (m : run A) (f : A → run B) (b : B) :
  result (m ≫= f) = Ok b → ∃ a, result m = Ok a ∧ result (f a) = Ok b.
Proof.
  unfold mbind, run_bind. destruct (result m) as [a|e]; [|done].
  intros Hb. by exists a.
Qed.

Lemma run_bind_shown {A B} (m : run A) (f : A → run B) (a : A) :
  result m = Ok a → shown (m ≫= f) = shown m ++ shown (f a).
Proof. unfold mbind, run_bind. by intros ->. Qed.

Lemma result_lift {A} (r : res A) : result (lift r) = r.
Proof. done. Qed.

(** Peels the binds of a run that is known to end normally. *)
Ltac run_inv H :=
  repeat match type of H with
  | result (_ ≫= _) = Ok _ =>
      let a := fresh "a" in
      let Ha := fresh "Ha" in
      apply run_bind_Ok in H as (a & Ha & H)
  end.

(** ** Upload failures *)

Section Uploads.
Context `{Library}.

Lemma process_gl_data_no_lookups df t :
  process_gl_data df ∅ ∅ = Ok t →
  Forall (λ r, GL_Description r = Text "Unknown GL"
               ∧ Category r = Text "Uncategorized") t.
Proof.
  intros Ht. apply Forall_forall. intros r Hr.
  destruct (process_gl_data_row _ _ _ _ _ Ht Hr) as [-> ->].
  unfold get_gl_name, get_gl_category. by rewrite !lookup_empty.
Qed.

(** The description loader never raises, and shows nothing but its error
    message. *)
Lemma load_gl_descriptions_total desc_file :
  ∃ els dicts,
    load_gl_descriptions_from_upload desc_file = Run els (Ok dicts)
    ∧ Forall (λ e, ∃ msg, e = error msg) els.
Proof.
  unfold load_gl_descriptions_from_upload.
  match goal with |- context [match ?body with Ok _ => _ | Raise _ => _ end] =>
    destruct body as [dicts|e] end.
  - by eexists [], _.
  - eexists [_], _. split; [reflexivity|]. repeat constructor. by eexists.
Qed.

(** The normalized table of a run that got through the block under the
    guard. *)
Lemma pipeline_Ok df names cats ss c :
  result (pipeline df names cats ss) = Ok c →
  process_gl_data df names cats = Ok (processed_data c).
Proof.
  unfold pipeline. intros Hc. run_inv Hc.
  injection Hc as <-. done.
Qed.

(** C2 as amended.  When the dump does not parse, the run shows the message
    of the dump loader, the loader returns [None], and the run ends there
    with nothing computed and nothing but error messages on the page.  When
    the description file does not parse, the run shows the message of the
    description loader, the loader returns two empty mappings, and with a
    readable dump the run goes on to the block under the guard with them:
    the normalized table is computed, every row of it resolved to
    "Unknown GL" and "Uncategorized". *)
Theorem parse_failure_handling :
  (∀ desc_file ss,
     load_gl_dump_from_upload Unreadable
     = Run [error "❌ Error reading GL dump file"] (Ok None)
     ∧ result (main (Some Unreadable) (Some desc_file) ss) = Ok None
     ∧ error "❌ Error reading GL dump file"
         ∈ shown (main (Some Unreadable) (Some desc_file) ss)
     ∧ Forall (λ e, ∃ msg, e = error msg)
              (shown (main (Some Unreadable) (Some desc_file) ss)))
  ∧ (∀ df ss,
       load_gl_descriptions_from_upload Unreadable
       = Run [error "❌ Error reading GL Description file"] (Ok (∅, ∅))
       ∧ main (Some (Workbook df)) (Some Unreadable) ss
         = (show (error "❌ Error reading GL Description file");;
            c ← pipeline df ∅ ∅ ss;
            mret (Some c))
       ∧ ∀ c, result (main (Some (Workbook df)) (Some Unreadable) ss) = Ok (Some c) →
              process_gl_data df ∅ ∅ = Ok (processed_data c)
              ∧ Forall (λ r, GL_Description r = Text "Unknown GL"
                             ∧ Category r = Text "Uncategorized")
                       (processed_data c)).
Proof.
  split.
  - intros desc_file ss. split; [reflexivity|].
    destruct (load_gl_descriptions_total desc_file) as (els & dicts & Hload & Hels).
    unfold main. rewrite Hload. destruct dicts as [names cats]. cbn.
    repeat split; [set_solver|].
    constructor; [by eexists|]. by rewrite app_nil_r.
  - intros df ss. split; [reflexivity|]. split; [reflexivity|].
    intros c Hc. rewrite main_readable_dump in Hc.
    apply run_bind_Ok in Hc as (dicts & [= <-] & Hc).
    apply run_bind_Ok in Hc as (c' & Hc' & [= <-]).
    apply pipeline_Ok in Hc'. split; [done|].
    by eapply process_gl_data_no_lookups.
Qed.

End Uploads.

Definition travel_row_unresolved : txn :=
  {| GL_Code := Num 4010; GL_Description := Text "Unknown GL";
     Category := Text "Uncategorized"; Order := Num 30102204; Amount := 150050 |}.

(** The claim C2 as it was stated fails for the description file: the file
    does not parse, and the run still computes the normalized table, the
    filtered views and both summaries. *)
Lemma description_failure_does_not_stop_the_run :
  result (main (H := Sample.plain_and_dots)
            (Some (Workbook travel_dump)) (Some Unreadable)
            (Sample.first_visit DashboardHome))
  = Ok (Some {| processed_data := [travel_row_unresolved];
                all_categories := [];
                page_tables := HomeTables [] [] [] [] |}).
Proof. reflexivity. Qed.

(** ** The filters *)

Lemma sorted_Ok (xs ys : list cell) : sorted xs = Ok ys → ys ≡ₚ xs.
Proof.
  unfold sorted. case_bool_decide; [by intros [= <-]|].
  destruct (_ || _); [|done]. intros [= <-]. apply sort_by_perm.
Qed.

Lemma or_all_subseteq {A} (selected everything : list A) :
  selected ⊆ everything → or_all selected everything ⊆ everything.
Proof. by destruct selected. Qed.

Lemma elem_of_filter_isin column values df r :
  r ∈ filter_isin column values df ↔ column r ∈ values ∧ r ∈ df.
Proof. unfold filter_isin. by rewrite list_elem_of_filter, isin_true. Qed.

Lemma filter_isin_all column values df :
  (∀ r, r ∈ df → column r ∈ values) → filter_isin column values df = df.
Proof.
  intros Hall. unfold filter_isin. induction df as [|r df IH]; [done|].
  rewrite filter_cons_True by (apply isin_true, Hall; left).
  f_equal. apply IH. intros r' Hr'. apply Hall. by right.
Qed.

Section Filters.
Context `{Library}.
Implicit Types (ss : session) (cats : list cell) (df : list txn).

Lemma category_checkboxes_subseteq ss prefix idx cats selected :
  category_checkboxes ss prefix idx cats = Ok selected → selected ⊆ cats.
Proof.
  revert idx selected. induction cats as [|cat cats IH]; intros idx selected; simpl.
  - intros [= <-]. done.
  - intros Hsel.
    apply res_bind_Ok in Hsel as (ticked & _ & Hsel).
    apply res_bind_Ok in Hsel as (rest & Hrest & [= <-]).
    apply IH in Hrest. destruct ticked; set_solver.
Qed.

(** The labels of the category checkboxes are all text when the loop gets
    through. *)
Lemma category_checkboxes_text ss prefix idx cats selected :
  category_checkboxes ss prefix idx cats = Ok selected →
  Forall (λ cat, is_text cat = true) cats.
Proof.
  revert idx selected. induction cats as [|cat cats IH]; intros idx selected; simpl.
  - constructor.
  - intros Hsel.
    apply res_bind_Ok in Hsel as (ticked & Hcat & Hsel).
    apply res_bind_Ok in Hsel as (rest & Hrest & _).
    constructor; [by destruct cat|by eapply IH].
Qed.

(** With every box of the loop in the same state [b], the loop selects
    everything or nothing. *)
Lemma category_checkboxes_const ss prefix (b : bool) idx cats :
  (∀ i : nat, checkbox_state ss (prefix +:+ pretty i) = b) →
  category_checkboxes ss prefix idx cats
  = if forallb is_text cats then Ok (if b then cats else []) else Raise TypeError.
Proof.
  intros Hstate. revert idx. induction cats as [|cat cats IH]; intros idx; simpl.
  - by destruct b.
  - destruct cat as [z|s|]; simpl; [done| |done].
    rewrite Hstate, IH. destruct (forallb is_text cats); simpl; [|done].
    by destruct b.
Qed.

Lemma filter_by_category_Ok ss prefix cats df filtered :
  filter_by_category ss prefix cats df = Ok filtered →
  Forall (λ cat, is_text cat = true) cats
  ∧ ∃ selected, selected ⊆ cats ∧ filtered = filter_isin Category selected df.
Proof.
  unfold filter_by_category. intros Hf.
  apply res_bind_Ok in Hf as (selected & Hsel & [= <-]).
  split; [by eapply category_checkboxes_text|].
  exists (or_all selected cats). split; [|done].
  apply or_all_subseteq. by eapply category_checkboxes_subseteq.
Qed.

Lemma filter_by_category_without ss prefix cats df :
  Uncategorized ∉ cats →
  filter_by_category ss prefix cats (filter (λ r, Category r ≠ Uncategorized) df)
  = filter_by_category ss prefix cats df.
Proof.
  intros Hcats. unfold filter_by_category.
  destruct (category_checkboxes ss prefix 0 cats) as [selected|e] eqn:Hsel; [|done].
  simpl. f_equal. unfold filter_isin. rewrite list_filter_filter.
  apply list_filter_iff. intros r. split; [tauto|]. intros Hr. split; [done|].
  apply isin_true in Hr. intros Hun. apply Hcats.
  apply category_checkboxes_subseteq in Hsel.
  apply (or_all_subseteq _ _ Hsel). by rewrite <-Hun.
Qed.

Lemma dashboard_home_without ss cats df :
  Uncategorized ∉ cats →
  dashboard_home ss (filter (λ r, Category r ≠ Uncategorized) df) cats
  = dashboard_home ss df cats.
Proof. intros Hcats. unfold dashboard_home. by rewrite filter_by_category_without. Qed.

Lemma query_employee_without ss cats df :
  Uncategorized ∉ cats →
  query_employee ss (filter (λ r, Category r ≠ Uncategorized) df) cats
  = query_employee ss df cats.
Proof. intros Hcats. unfold query_employee. by rewrite filter_by_category_without. Qed.

End Filters.

(** ** Group-by *)

Section GroupBy.
Context `{EqDecision K} (key : txn → option K) (kle : K → K → bool).

Lemma elem_of_groupby k group df :
  (k, group) ∈ groupby key kle df
  ↔ (∃ r, r ∈ df ∧ key r = Some k) ∧ group = filter (λ r, key r = Some k) df.
Proof.
  unfold groupby. rewrite list_elem_of_fmap. split.
  - intros (k' & [= -> ->] & Hk). split; [|done].
    apply elem_of_sort_by, elem_of_unique, list_elem_of_omap in Hk.
    destruct Hk as (r & ? & ?). by exists r.
  - intros ((r & Hr & Hk) & ->). exists k. split; [done|].
    apply elem_of_sort_by, elem_of_unique, list_elem_of_omap. by exists r.
Qed.

Lemma NoDup_groupby_keys df : NoDup (groupby key kle df).*1.
Proof.
  assert ((groupby key kle df).*1 = sort_by kle (unique (omap key df))) as ->.
  { unfold groupby. rewrite <-list_fmap_compose.
    induction (sort_by _ _) as [|k ks IH]; [done|]. csimpl. by f_equal. }
  rewrite sort_by_perm. apply NoDup_unique.
Qed.

End GroupBy.

Lemma present_Some c k : present c = Some k ↔ k = c ∧ isna c = false.
Proof. unfold present. destruct (isna c); naive_solver. Qed.

Lemma gl_key_Some r c d k :
  gl_key r = Some (c, d, k)
  ↔ (c = GL_Code r ∧ d = GL_Description r ∧ k = Category r)
    ∧ isna (GL_Code r) = false ∧ isna (GL_Description r) = false
    ∧ isna (Category r) = false.
Proof.
  unfold gl_key, present.
  destruct (isna (GL_Code r)), (isna (GL_Description r)), (isna (Category r));
    simpl; naive_solver.
Qed.

Lemma elem_of_gl_groups g df :
  g ∈ gl_groups df →
  ∃ r, r ∈ df ∧ gl_key r = Some (GL_Code' g, GL_Description' g, Category' g).
Proof.
  unfold gl_groups. rewrite list_elem_of_fmap.
  intros ([[[c d] k] group] & -> & Hg). simpl.
  by apply elem_of_groupby in Hg as [Hr _].
Qed.

Lemma elem_of_gl_summary g df :
  g ∈ gl_summary df →
  ∃ r, r ∈ df ∧ gl_key r = Some (GL_Code' g, GL_Description' g, Category' g).
Proof.
  unfold gl_summary. rewrite elem_of_sort_by. apply elem_of_gl_groups.
Qed.

(** ** The GL selection *)

(** The part of the GL loop that does not depend on the boxes: the name of
    each code is looked up and cut to 30 characters. *)
Fixpoint gl_labels (filtered_by_cat : list txn) (all_gls : list cell) : res unit :=
  match all_gls with
  | [] => Ok tt
  | gl_code :: rest =>
      gl_name ← iloc0 (GL_Description <$>
                         filter (λ r, cell_eq (GL_Code r) gl_code = true) filtered_by_cat);
      _ ← slice30 gl_name;
      gl_labels filtered_by_cat rest
  end.

Lemma cell_eq_true (a b : cell) : cell_eq a b = true ↔ isna a = false ∧ a = b.
Proof.
  unfold cell_eq. rewrite andb_true_iff, negb_true_iff, bool_decide_eq_true. done.
Qed.

Lemma iloc0_Ok {A} (xs : list A) x : iloc0 xs = Ok x → head xs = Some x.
Proof. destruct xs; [done|]. by intros [= <-]. Qed.

Lemma gl_checkboxes_const ss (b : bool) filtered_by_cat all_gls :
  (∀ code, checkbox_state ss ("gl_" +:+ str code) = b) →
  gl_checkboxes ss filtered_by_cat all_gls
  = (_ ← gl_labels filtered_by_cat all_gls; Ok (if b then all_gls else [])).
Proof.
  intros Hstate. induction all_gls as [|code gls IH]; simpl.
  - by destruct b.
  - destruct (iloc0 _) as [name|e]; simpl; [|done].
    destruct (slice30 name) as [short|e]; simpl; [|done].
    rewrite Hstate, IH.
    destruct (gl_labels filtered_by_cat gls); simpl; [|done].
    by destruct b.
Qed.

Lemma gl_checkboxes_Ok ss filtered_by_cat all_gls selected :
  gl_checkboxes ss filtered_by_cat all_gls = Ok selected →
  selected ⊆ all_gls
  ∧ Forall (λ code, isna code = false
                    ∧ ∃ r, r ∈ filtered_by_cat ∧ GL_Code r = code
                           ∧ is_text (GL_Description r) = true) all_gls.
Proof.
  revert selected. induction all_gls as [|code gls IH]; intros selected; simpl.
  - intros [= <-]. split; [done|constructor].
  - intros Hsel.
    apply res_bind_Ok in Hsel as (name & Hname & Hsel).
    apply res_bind_Ok in Hsel as (short & Hshort & Hsel).
    simpl in Hsel.
    apply res_bind_Ok in Hsel as (rest & Hrest & [= <-]).
    apply IH in Hrest as [Hsub Hall].
    split; [destruct (checkbox_state ss _); set_solver|].
    constructor; [|done].
    apply iloc0_Ok in Hname.
    destruct (filter _ filtered_by_cat) as [|r rs] eqn:Hfilter; [done|].
    injection Hname as <-.
    assert (r ∈ filter (λ r, cell_eq (GL_Code r) code = true) filtered_by_cat) as Hr
      by (rewrite Hfilter; left).
    apply list_elem_of_filter in Hr as [Heq Hr].
    apply cell_eq_true in Heq as [Hna <-].
    split; [done|]. exists r. repeat split; [done|].
    by destruct (GL_Description r).
Qed.

Lemma filter_by_gl_Ok ss filtered_by_cat final_filtered :
  filter_by_gl ss filtered_by_cat = Ok final_filtered →
  (∃ selected, final_filtered = filter_isin GL_Code selected filtered_by_cat)
  ∧ ∀ r, r ∈ filtered_by_cat →
         isna (GL_Code r) = false
         ∧ ∃ r', r' ∈ filtered_by_cat ∧ GL_Code r' = GL_Code r
                 ∧ is_text (GL_Description r') = true.
Proof.
  unfold filter_by_gl. intros Hf.
  apply res_bind_Ok in Hf as (all_gls & Hsorted & Hf).
  apply res_bind_Ok in Hf as (selected & Hsel & [= <-]).
  split; [by eexists|].
  intros r Hr. apply gl_checkboxes_Ok in Hsel as [_ Hall].
  rewrite Forall_forall in Hall. apply Hall.
  rewrite (sorted_Ok _ _ Hsorted), elem_of_unique.
  apply list_elem_of_fmap. by exists r.
Qed.

(** With every GL box unticked the selection falls back to all codes, and
    the filter keeps every row. *)
Lemma filter_by_gl_const ss (b : bool) filtered_by_cat :
  (∀ code, checkbox_state ss ("gl_" +:+ str code) = b) →
  filter_by_gl ss filtered_by_cat
  = (all_gls ← sorted (unique (GL_Code <$> filtered_by_cat));
     _ ← gl_labels filtered_by_cat all_gls;
     Ok filtered_by_cat).
Proof.
  intros Hstate. unfold filter_by_gl.
  destruct (sorted _) as [all_gls|e] eqn:Hsorted; simpl; [|done].
  rewrite (gl_checkboxes_const _ b) by done.
  destruct (gl_labels _ _); simpl; [|done].
  f_equal. apply filter_isin_all. intros r Hr.
  assert (GL_Code r ∈ all_gls) as Hin.
  { rewrite (sorted_Ok _ _ Hsorted), elem_of_unique.
    apply list_elem_of_fmap. by exists r. }
  destruct b; [by destruct all_gls|done].
Qed.

(** ** What the pages compute *)

Section PageFacts.
Context `{Library}.

Lemma dashboard_home_Ok ss df cats t :
  result (dashboard_home ss df cats) = Ok t →
  ∃ filtered_by_cat final_filtered,
    filter_by_category ss "cat_" cats df = Ok filtered_by_cat
    ∧ filter_by_gl ss filtered_by_cat = Ok final_filtered
    ∧ t = HomeTables filtered_by_cat final_filtered
                     (gl_summary final_filtered) (order_summary final_filtered).
Proof.
  unfold dashboard_home. intros Ht.
  apply run_bind_Ok in Ht as (filtered_by_cat & Hcat & Ht).
  do 4 apply run_bind_Ok in Ht as (? & _ & Ht).
  apply run_bind_Ok in Ht as (final_filtered & Hgl & Ht).
  do 4 apply run_bind_Ok in Ht as (? & _ & Ht).
  injection Ht as <-. by exists filtered_by_cat, final_filtered.
Qed.

Lemma elem_of_mask_rows {A} (df : list A) (mask : list bool) x :
  x ∈ mask_rows df mask → x ∈ df.
Proof.
  unfold mask_rows. rewrite list_elem_of_fmap.
  intros ([x' b] & -> & Hx). apply list_elem_of_filter in Hx as [_ Hx].
  by apply elem_of_zip_l in Hx.
Qed.

Lemma query_employee_Ok ss df cats t :
  result (query_employee ss df cats) = Ok t →
  ∃ filtered_by_cat_query,
    filter_by_category ss "query_cat_" cats df = Ok filtered_by_cat_query
    ∧ (t = QueryTables filtered_by_cat_query None
       ∨ ∃ mask,
           str_contains (Str.strip (text_input ss)) (Order <$> filtered_by_cat_query)
           = Ok mask
           ∧ t = QueryTables filtered_by_cat_query
                             (Some (mask_rows filtered_by_cat_query mask))).
Proof.
  unfold query_employee. intros Ht.
  apply run_bind_Ok in Ht as (filtered & Hcat & Ht).
  exists filtered. split; [done|].
  destruct (button ss); [|injection Ht as <-; by left].
  case_bool_decide; [|injection Ht as <-; by left].
  apply run_bind_Ok in Ht as (mask & Hmask & Ht).
  right. exists mask. split; [done|].
  case_bool_decide.
  - do 7 apply run_bind_Ok in Ht as (? & _ & Ht). by injection Ht as <-.
  - apply run_bind_Ok in Ht as (? & _ & Ht). by injection Ht as <-.
Qed.

Lemma pipeline_Ok_page df names cats ss c :
  result (pipeline df names cats ss) = Ok c →
  sorted (filter (λ cat, cat ≠ Uncategorized)
                 (unique (Category <$> processed_data c)))
  = Ok (all_categories c)
  ∧ match radio ss with
    | DashboardHome =>
        result (dashboard_home ss (processed_data c) (all_categories c))
    | QueryEmployee =>
        result (query_employee ss (processed_data c) (all_categories c))
    | Settings => result (settings (processed_data c) (all_categories c))
    end = Ok (page_tables c).
Proof.
  unfold pipeline. intros Hc. run_inv Hc. injection Hc as <-. simpl.
  split; [done|]. by destruct (radio ss).
Qed.

Lemma all_categories_no_Uncategorized (column : list cell) cats :
  sorted (filter (λ cat, cat ≠ Uncategorized) (unique column)) = Ok cats →
  Uncategorized ∉ cats.
Proof.
  intros Hcats%sorted_Ok. rewrite Hcats, list_elem_of_filter. tauto.
Qed.

(** C9.  In a run that gets through the block under the guard,
    "Uncategorized" is not among the category checkboxes, no row of a
    filtered view of the dashboard or query page has that category, nor has
    a row of the GL summary, both summaries are taken from the filtered view,
    and each of the two pages is, in all it shows and computes, the page of
    the normalized table without its "Uncategorized" rows. *)
Theorem uncategorized_rows_never_selected df names cats ss c :
  result (pipeline df names cats ss) = Ok c →
  Uncategorized ∉ all_categories c
  ∧ match page_tables c with
    | HomeTables filtered_by_cat final_filtered gl_rows order_rows =>
        (∀ r, r ∈ filtered_by_cat → Category r ≠ Uncategorized)
        ∧ (∀ r, r ∈ final_filtered → Category r ≠ Uncategorized)
        ∧ (∀ g, g ∈ gl_rows → Category' g ≠ Uncategorized)
        ∧ gl_rows = gl_summary final_filtered
        ∧ order_rows = order_summary final_filtered
    | QueryTables filtered_by_cat_query filtered_data =>
        (∀ r, r ∈ filtered_by_cat_query → Category r ≠ Uncategorized)
        ∧ (∀ found r, filtered_data = Some found → r ∈ found →
                      Category r ≠ Uncategorized)
    | SettingsTables => radio ss = Settings
    end
  ∧ dashboard_home ss (filter (λ r, Category r ≠ Uncategorized) (processed_data c))
                   (all_categories c)
    = dashboard_home ss (processed_data c) (all_categories c)
  ∧ query_employee ss (filter (λ r, Category r ≠ Uncategorized) (processed_data c))
                   (all_categories c)
    = query_employee ss (processed_data c) (all_categories c).
Proof.
  intros Hc. apply pipeline_Ok_page in Hc as [Hcats Hpage].
  apply all_categories_no_Uncategorized in Hcats.
  split; [done|].
  split; [|split; [by apply dashboard_home_without|by apply query_employee_without]].
  assert (∀ ss' prefix filtered r,
            filter_by_category ss' prefix (all_categories c) (processed_data c)
            = Ok filtered →
            r ∈ filtered → Category r ≠ Uncategorized) as Hfiltered.
  { intros ss' prefix filtered r Hf Hr.
    apply filter_by_category_Ok in Hf as (_ & selected & Hsub & ->).
    apply elem_of_filter_isin in Hr as [Hr _]. intros Hun. apply Hcats.
    apply Hsub. by rewrite <-Hun. }
  destruct (radio ss) eqn:Hradio.
  - apply dashboard_home_Ok in Hpage as (fbc & ff & Hfbc & Hff & ->).
    apply filter_by_gl_Ok in Hff as [[selected ->] _].
    assert (∀ r, r ∈ filter_isin GL_Code selected fbc → Category r ≠ Uncategorized)
      as Hfinal.
    { intros r [_ Hr]%elem_of_filter_isin. by eapply Hfiltered. }
    split; [intros r Hr; by eapply Hfiltered|].
    split; [done|]. split; [|done].
    intros g (r & Hr & Hkey)%elem_of_gl_summary.
    apply gl_key_Some in Hkey as ((_ & _ & ->) & _). by apply Hfinal.
  - apply query_employee_Ok in Hpage as (fbc & Hfbc & [->|(mask & _ & ->)]).
    + split; [intros r Hr; by eapply Hfiltered|]. by intros found r [=].
    + split; [intros r Hr; by eapply Hfiltered|].
      intros found r [= <-] Hr%elem_of_mask_rows. by eapply Hfiltered.
  - unfold settings in Hpage.
    do 5 apply run_bind_Ok in Hpage as (? & _ & Hpage).
    apply run_bind_Ok in Hpage as (? & _ & Hpage).
    do 3 apply run_bind_Ok in Hpage as (? & _ & Hpage).
    by injection Hpage as <-.
Qed.

End PageFacts.

(** A dump with one row of a mapped code and one of a code the description
    sheet does not have. *)
Definition mixed_dump : DataFrame :=
  {| ncols := 13;
     rows := [Sample.dump_row (Num 4010) (Num 30102204) (Num 150050);
              Sample.dump_row (Num 9999) (Num 30103311) (Num 700)] |}.

Definition unmapped_row : txn :=
  {| GL_Code := Num 9999; GL_Description := Text "Unknown GL";
     Category := Text "Uncategorized"; Order := Num 30103311; Amount := 700 |}.

Definition mixed_run : computed :=
  {| processed_data := [travel_row; unmapped_row];
     all_categories := [Text "Travel"];
     page_tables :=
       HomeTables [travel_row] [travel_row]
         [{| GL_Code' := Num 4010; GL_Description' := Text "Travel Recovery";
             Category' := Text "Travel"; Total_Amount := 150050;
             Number_of_Records := 1 |}]
         [{| Order_IO := Num 30102204; Total_Amount' := 150050;
             Number_of_GLs := 1 |}] |}.

Lemma uncategorized_rows_never_selected_witness :
  result (pipeline (H := Sample.plain_and_dots) mixed_dump travel_names travel_cats
            (Sample.first_visit DashboardHome)) = Ok mixed_run
  ∧ unmapped_row ∈ processed_data mixed_run
  ∧ Uncategorized ∉ all_categories mixed_run.
Proof.
  split; [reflexivity|]. split; [right; left|].
  apply (uncategorized_rows_never_selected (H := Sample.plain_and_dots)
           mixed_dump travel_names travel_cats (Sample.first_visit DashboardHome)).
  reflexivity.
Defined.

(** ** Empty selections *)

(** The session with every checkbox in the state [b]. *)
Definition with_boxes (b : bool) (ss : session) : session :=
  {| radio := radio ss; checkbox_state := λ _, b;
     text_input := text_input ss; button := button ss |}.

Section EmptySelection.
Context `{Library}.

Lemma filter_by_category_const ss prefix (b : bool) cats df :
  (∀ i : nat, checkbox_state ss (prefix +:+ pretty i) = b) →
  filter_by_category ss prefix cats df
  = if forallb is_text cats then Ok (filter_isin Category cats df)
    else Raise TypeError.
Proof.
  intros Hstate. unfold filter_by_category.
  rewrite (category_checkboxes_const _ _ b) by done.
  destruct (forallb is_text cats); simpl; [|done].
  destruct b; [by destruct cats|done].
Qed.

(** C10.  Unticking every category checkbox of a page gives the filtered
    table that ticking all of them gives, which holds the rows whose category
    is one of the checkboxes; unticking every GL checkbox gives the table that
    ticking all of them gives, which is the table that came in.  So a page
    with every box unticked is the page with every box ticked. *)
Theorem empty_selection_is_full_selection :
  (∀ ss_off ss_on prefix cats df,
     (∀ i : nat, checkbox_state ss_off (prefix +:+ pretty i) = false) →
     (∀ i : nat, checkbox_state ss_on (prefix +:+ pretty i) = true) →
     filter_by_category ss_off prefix cats df
     = filter_by_category ss_on prefix cats df
     ∧ ∀ filtered, filter_by_category ss_off prefix cats df = Ok filtered →
                   filtered = filter_isin Category cats df)
  ∧ (∀ ss_off ss_on filtered_by_cat,
       (∀ code, checkbox_state ss_off ("gl_" +:+ str code) = false) →
       (∀ code, checkbox_state ss_on ("gl_" +:+ str code) = true) →
       filter_by_gl ss_off filtered_by_cat = filter_by_gl ss_on filtered_by_cat
       ∧ ∀ final_filtered, filter_by_gl ss_off filtered_by_cat = Ok final_filtered →
                           final_filtered = filtered_by_cat)
  ∧ (∀ ss df cats,
       dashboard_home (with_boxes false ss) df cats
       = dashboard_home (with_boxes true ss) df cats
       ∧ query_employee (with_boxes false ss) df cats
         = query_employee (with_boxes true ss) df cats).
Proof.
  split; [|split].
  - intros ss_off ss_on prefix cats df Hoff Hon.
    rewrite (filter_by_category_const ss_off _ false) by done.
    rewrite (filter_by_category_const ss_on _ true) by done.
    split; [done|]. intros filtered.
    destruct (forallb is_text cats); [|done]. by intros [= <-].
  - intros ss_off ss_on fbc Hoff Hon.
    rewrite (filter_by_gl_const ss_off false) by done.
    rewrite (filter_by_gl_const ss_on true) by done.
    split; [done|]. intros ff Hff.
    apply res_bind_Ok in Hff as (all_gls & _ & Hff).
    apply res_bind_Ok in Hff as (? & _ & Hff). by injection Hff as <-.
  - intros ss df cats.
    assert (∀ prefix,
              filter_by_category (with_boxes false ss) prefix cats df
              = filter_by_category (with_boxes true ss) prefix cats df) as Hcat.
    { intros prefix.
      rewrite (filter_by_category_const (with_boxes false ss) _ false) by done.
      by rewrite (filter_by_category_const (with_boxes true ss) _ true). }
    assert (∀ fbc, filter_by_gl (with_boxes false ss) fbc
                   = filter_by_gl (with_boxes true ss) fbc) as Hgl.
    { intros fbc.
      rewrite (filter_by_gl_const (with_boxes false ss) false) by done.
      by rewrite (filter_by_gl_const (with_boxes true ss) true). }
    unfold dashboard_home, query_employee. rewrite !Hcat.
    split; [|done].
    destruct (filter_by_category _ _ _ _) as [fbc|e]; [|done].
    cbn -[filter_by_gl gl_summary order_summary Csv.to_csv nunique]. by rewrite Hgl.
Qed.

End EmptySelection.

(** On the sample sheets, a dashboard with no box ticked shows the row of
    the one category there is. *)
Lemma empty_selection_is_full_selection_witness :
  filter_by_category (with_boxes false (Sample.first_visit DashboardHome))
    "cat_" [Text "Travel"] [travel_row; unmapped_row]
  = Ok [travel_row]
  ∧ filter_by_category (with_boxes true (Sample.first_visit DashboardHome))
      "cat_" [Text "Travel"] [travel_row; unmapped_row]
    = Ok [travel_row]
  ∧ filter_by_gl (with_boxes false (Sample.first_visit DashboardHome)) [travel_row]
    = Ok [travel_row].
Proof.
  destruct (empty_selection_is_full_selection (H := Sample.plain_and_dots))
    as (Hcat & Hgl & _).
  destruct (Hcat (with_boxes false (Sample.first_visit DashboardHome))
                 (with_boxes true (Sample.first_visit DashboardHome))
                 "cat_" [Text "Travel"] [travel_row; unmapped_row])
    as [Hsame _]; [done|done|].
  rewrite <-Hsame. repeat split; reflexivity.
Defined.

(** ** Group-by conserves the amount *)

Section GroupSums.
Context `{EqDecision K} (key : txn → option K).








End GroupSums.



(** ** The summary by GL code conserves the total *)

Section Conservation.
Context `{Library}.



End Conservation.


(** ** The summary by order *)

Lemma descending_total (a b c : Z) :
  bool_decide (b ≤ a) = true → bool_decide (c ≤ b) = true →
  bool_decide (c ≤ a) = true.
Proof. rewrite !bool_decide_eq_true. lia. Qed.

(** The rows of the summary by order: one for each order of the table, with
    the sum of the amounts of its rows and the number of its rows that have a
    GL code. *)
Lemma elem_of_order_summary (o : order_row) (df : list txn) :
  o ∈ order_summary df
  ↔ (∃ r, r ∈ df ∧ Order r = Order_IO o ∧ isna (Order r) = false)
    ∧ Total_Amount' o
      = sum_Z (Amount <$> filter (λ r, Order r = Order_IO o) df)
    ∧ Number_of_GLs o
      = length (filter (λ r, isna (GL_Code r) = false)
                       (filter (λ r, Order r = Order_IO o) df)).
Proof.
  assert (∀ k, isna k = false →
               filter (λ r, present (Order r) = Some k) df
               = filter (λ r, Order r = k) df) as Hgroup.
  { intros k Hk. apply list_filter_iff. intros r. rewrite present_Some.
    split; [by intros [-> _]|]. by intros ->. }
  assert (∀ group : list txn,
            count (GL_Code <$> group)
            = length (filter (λ r, isna (GL_Code r) = false) group)) as Hcount.
  { intros group. unfold count. induction group as [|r group IH]; [done|].
    csimpl. destruct (isna (GL_Code r)) eqn:Hr.
    - rewrite !filter_cons_False by (by rewrite ?Hr). done.
    - rewrite !filter_cons_True by done. simpl. by rewrite IH. }
  unfold order_summary, order_groups.
  rewrite elem_of_sort_by, list_elem_of_fmap. split.
  - intros ([k group] & -> & Hg). simpl.
    apply elem_of_groupby in Hg as [(r & Hr & Hk) ->].
    apply present_Some in Hk as [-> Hk].
    rewrite Hgroup, Hcount by done. split; [by exists r|done].
  - intros ((r & Hr & Ho & Hna) & Htotal & Hn).
    exists (Order_IO o, filter (λ r, Order r = Order_IO o) df). split.
    + destruct o as [k total n]. simpl in *. rewrite Hcount. congruence.
    + apply elem_of_groupby. rewrite <-Ho in *. split.
      * exists r. split; [done|]. by apply present_Some.
      * by rewrite Hgroup.
Qed.

Lemma StronglySorted_weaken {A} (R S : A → A → Prop) (l : list A) :
  (∀ a b, R a b → S a b) → StronglySorted R l → StronglySorted S l.
Proof.
  intros HRS. induction 1 as [|a l Hl IH Ha]; constructor; [done|].
  eapply Forall_impl; [exact Ha|]. intros b. apply HRS.
Qed.

Lemma order_summary_sorted (df : list txn) :
  StronglySorted (λ a b, Total_Amount' b ≤ Total_Amount' a) (order_summary df).
Proof.
  unfold order_summary.
  eapply StronglySorted_weaken;
    [|apply (sort_by_sorted (λ a b, bool_decide (Total_Amount' b ≤ Total_Amount' a)))].
  - intros a b. unfold below. by rewrite bool_decide_eq_true.
  - intros a b. rewrite !bool_decide_eq_true. lia.
  - intros a b c. apply descending_total.
Qed.

(** Two postings of one order on the same GL code. *)
Definition second_posting : txn :=
  {| GL_Code := Num 4010; GL_Description := Text "Travel Recovery";
     Category := Text "Travel"; Order := Num 30102204; Amount := 100 |}.

(** C1.  The summary by order has one row for the order, with the sum of
    its amounts, but the order has touched one GL code and the row says 2:
    the column 'Number of GLs' counts the rows of the order, not its distinct
    GL codes. *)
Example order_summary_counts_records :
  order_summary [travel_row; second_posting]
  = [{| Order_IO := Num 30102204; Total_Amount' := 150150; Number_of_GLs := 2 |}]
  ∧ nunique (GL_Code <$> [travel_row; second_posting]) = 1%nat.
Proof. split; reflexivity. Qed.

(** ** The query page *)









Section Query.
Context `{Library}.





End Query.


(** The example of the specification: of the orders 30102204 and 30103311,
    the input "30102" finds the first only. *)
Definition other_order : txn :=
  {| GL_Code := Num 4010; GL_Description := Text "Travel Recovery";
     Category := Text "Travel"; Order := Num 30103311; Amount := 700 |}.

Example query_30102 :
  result (query_employee (H := Sample.plain_and_dots) (Sample.searching "30102")
            [travel_row; other_order] [Text "Travel"])
  = Ok (QueryTables [travel_row; other_order] (Some [travel_row])).
Proof. reflexivity. Qed.


(** ** CSV export *)

Module CsvFacts.
Import Csv.






















End CsvFacts.













(** * Further properties of the script *)

(** ** The width of the dump *)

Section DumpWidth.
Context `{Library}.

Lemma process_gl_data_narrow df names cats :
  (ncols df < 13)%nat → process_gl_data df names cats = Raise KeyError.
Proof.
  intros Hcols. unfold process_gl_data, has_col, gl_col, order_col, amount_col.
  repeat case_bool_decide; simpl; try done. lia.
Qed.

Lemma process_gl_data_wide df names cats :
  (13 ≤ ncols df)%nat →
  process_gl_data df names cats
  = Ok (dropna_Amount (set_columns names cats <$> rows df)).
Proof.
  intros Hcols. unfold process_gl_data, has_col, gl_col, order_col, amount_col.
  repeat case_bool_decide; simpl; try done; lia.
Qed.

(** X1.  [process_gl_data] reads the columns 1, 6 and 12 by position, so it
    raises [KeyError] exactly on a dump with fewer than 13 columns, and raises
    nothing else.  Nothing catches the exception: with such a dump the run
    ends in [KeyError] after the loaders, with at most their error messages on
    the page. *)
Theorem narrow_dump_raises_KeyError (df : DataFrame) :
  (∀ names cats,
     process_gl_data df names cats = Raise KeyError ↔ (ncols df < 13)%nat)
  ∧ (∀ names cats e, process_gl_data df names cats = Raise e → e = KeyError)
  ∧ (∀ desc_file ss,
       (ncols df < 13)%nat →
       result (main (Some (Workbook df)) (Some desc_file) ss) = Raise KeyError
       ∧ Forall (λ e, ∃ msg, e = error msg)
                (shown (main (Some (Workbook df)) (Some desc_file) ss))).
Proof.
  split; [|split].
  - intros names cats. split; [|apply process_gl_data_narrow].
    intros Hraise. destruct (decide (ncols df < 13)%nat) as [|Hwide]; [done|].
    rewrite process_gl_data_wide in Hraise by lia. done.
  - intros names cats e.
    destruct (decide (ncols df < 13)%nat) as [Hnarrow|Hwide].
    + rewrite process_gl_data_narrow by done. by intros [= <-].
    + rewrite process_gl_data_wide by lia. done.
  - intros desc_file ss Hcols. rewrite main_readable_dump.
    destruct (load_gl_descriptions_total desc_file) as (els & dicts & -> & Hels).
    cbn -[pipeline]. unfold pipeline. rewrite process_gl_data_narrow by done.
    cbn. split; [done|]. by rewrite app_nil_r.
Qed.

End DumpWidth.

(** ** What the description loader reports *)

(** X2.  The description loader never raises.  It shows its error message
    exactly when the file cannot be read or its sheet has fewer than two
    columns, and then both mappings are empty; otherwise it shows nothing. *)
Theorem description_loader_reports (file : xlsx) :
  ∃ els gl_name_dict gl_category_dict,
    load_gl_descriptions_from_upload file
    = Run els (Ok (gl_name_dict, gl_category_dict))
    ∧ (els = []
       ∨ els = [error "❌ Error reading GL Description file"]
         ∧ gl_name_dict = ∅ ∧ gl_category_dict = ∅)
    ∧ (els = [error "❌ Error reading GL Description file"]
       ↔ file = Unreadable ∨ ∃ df, file = Workbook df ∧ (ncols df < 2)%nat).
Proof.
  destruct file as [|df].
  - eexists _, _, _. split; [reflexivity|]. split; [by right|].
    split; [by left|done].
  - destruct (decide (ncols df < 2)%nat) as [Hshort|Hlong].
    + rewrite load_gl_descriptions_short_sheet by done.
      eexists _, _, _. split; [reflexivity|]. split; [by right|].
      split; [|done]. intros _. right. by exists df.
    + rewrite load_gl_descriptions_two_columns by lia.
      eexists _, _, _. split; [reflexivity|]. split; [by left|].
      split; [done|]. intros [?|(df' & [= <-] & ?)]; [done|lia].
Qed.

(** ** The join, from the two sheets *)

Section JoinSheets.
Context `{Library}.


End JoinSheets.




(** ** The category checkboxes *)









Section Categories.
Context `{Library}.

(** X4.  In a run that gets through the block under the guard, the list of
    categories behind the checkboxes has no entry twice and holds exactly the
    categories of the normalized table other than "Uncategorized". *)
Theorem all_categories_are_the_categories df names cats ss c :
  result (pipeline df names cats ss) = Ok c →
  NoDup (all_categories c)
  ∧ ∀ cat, cat ∈ all_categories c
           ↔ (∃ r, r ∈ processed_data c ∧ Category r = cat)
             ∧ cat ≠ Uncategorized.
Proof.
  intros Hc. apply pipeline_Ok_page in Hc as [Hcats%sorted_Ok _].
  split.
  - rewrite Hcats. apply NoDup_filter, NoDup_unique.
  - intros cat. rewrite Hcats, list_elem_of_filter, elem_of_unique,
      list_elem_of_fmap.
    split.
    + intros [Hne (r & -> & Hr)]. split; [by exists r|done].
    + intros [(r & Hr & <-) Hne]. split; [done|]. by exists r.
Qed.


End Categories.

Lemma all_categories_are_the_categories_witness :
  NoDup (all_categories mixed_run)
  ∧ Text "Travel" ∈ all_categories mixed_run.
Proof.
  destruct (all_categories_are_the_categories (H := Sample.plain_and_dots)
              mixed_dump travel_names travel_cats
              (Sample.first_visit DashboardHome) mixed_run)
    as [Hnodup Hin]; [reflexivity|].
  split; [exact Hnodup|]. apply Hin. split; [|done].
  exists travel_row. split; [left|reflexivity].
Defined.


(** ** What a ticked box selects *)

Lemma category_checkboxes_selected ss prefix idx cats selected :
  category_checkboxes ss prefix idx cats = Ok selected →
  ∀ cat, cat ∈ selected
         ↔ ∃ i, cats !! i = Some cat
                ∧ checkbox_state ss (prefix +:+ pretty (idx + i)%nat) = true.
Proof.
  revert idx selected. induction cats as [|x cats IH]; intros idx selected; simpl.
  - intros [= <-] cat. split; [by intros ?%elem_of_nil|]. by intros (i & ? & _).
  - intros Hsel cat.
    apply res_bind_Ok in Hsel as (ticked & Hticked & Hsel).
    apply res_bind_Ok in Hsel as (rest & Hrest & [= <-]).
    specialize (IH _ _ Hrest cat).
    assert (ticked = checkbox_state ss (prefix +:+ pretty idx)) as ->.
    { destruct x; simpl in Hticked; congruence. }
    assert (cat ∈ rest
            ↔ ∃ i, cats !! i = Some cat
                   ∧ checkbox_state ss (prefix +:+ pretty (idx + S i)%nat) = true)
      as Hrest'.
    { rewrite IH. by setoid_rewrite Nat.add_succ_r. }
    split.
    + intros Hcat.
      assert (cat ∈ rest ∨ cat = x ∧ checkbox_state ss (prefix +:+ pretty idx) = true)
        as [Hin|[-> Hx]].
      { destruct (checkbox_state ss _); [|by left].
        apply elem_of_cons in Hcat as [->|?]; [by right|by left]. }
      * apply Hrest' in Hin as (i & Hi & Hstate). by exists (S i).
      * exists 0%nat. by rewrite Nat.add_0_r.
    + intros ([|i] & Hi & Hstate).
      * injection Hi as ->. rewrite Nat.add_0_r in Hstate. rewrite Hstate. left.
      * assert (cat ∈ rest) by (apply Hrest'; by exists i).
        destruct (checkbox_state ss _); [by right|done].
Qed.

(** X6.  When the category loop gets through with at least one box ticked,
    the filtered table holds exactly the rows of the normalized table whose
    category has a ticked box: unticking a box takes the rows of its category
    out, and nothing else. *)
Theorem ticked_categories_are_kept ss prefix cats df filtered :
  filter_by_category ss prefix cats df = Ok filtered →
  (∃ i cat, cats !! i = Some cat
            ∧ checkbox_state ss (prefix +:+ pretty i) = true) →
  ∀ r, r ∈ filtered
       ↔ r ∈ df
         ∧ ∃ i, cats !! i = Some (Category r)
                ∧ checkbox_state ss (prefix +:+ pretty i) = true.
Proof.
  unfold filter_by_category. intros Hf (i0 & cat0 & Hi0 & Hticked0) r.
  apply res_bind_Ok in Hf as (selected & Hsel & [= <-]).
  pose proof (category_checkboxes_selected _ _ _ _ _ Hsel) as Hin.
  assert (cat0 ∈ selected) as Hcat0 by (apply Hin; by exists i0).
  assert (or_all selected cats = selected) as ->
    by (destruct selected; [by apply elem_of_nil in Hcat0|done]).
  rewrite elem_of_filter_isin, Hin. simpl. tauto.
Qed.

Lemma ticked_categories_are_kept_witness :
  travel_row ∈ [travel_row]
  ↔ travel_row ∈ [travel_row; unmapped_row]
    ∧ ∃ i, [Text "Travel"] !! i = Some (Category travel_row)
           ∧ checkbox_state (Sample.first_visit DashboardHome)
               ("cat_" +:+ pretty i) = true.
Proof.
  apply (ticked_categories_are_kept (Sample.first_visit DashboardHome) "cat_"
           [Text "Travel"] [travel_row; unmapped_row] [travel_row]).
  - reflexivity.
  - by exists 0%nat, (Text "Travel").
Defined.

Lemma gl_checkboxes_selected ss filtered_by_cat all_gls selected :
  gl_checkboxes ss filtered_by_cat all_gls = Ok selected →
  ∀ code, code ∈ selected
          ↔ code ∈ all_gls ∧ checkbox_state ss ("gl_" +:+ str code) = true.
Proof.
  revert selected. induction all_gls as [|x gls IH]; intros selected; simpl.
  - intros [= <-] code. split; [by intros ?%elem_of_nil|].
    by intros [?%elem_of_nil _].
  - intros Hsel code.
    apply res_bind_Ok in Hsel as (name & _ & Hsel).
    apply res_bind_Ok in Hsel as (short & _ & Hsel). simpl in Hsel.
    apply res_bind_Ok in Hsel as (rest & Hrest & [= <-]).
    specialize (IH _ Hrest code). rewrite elem_of_cons.
    destruct (checkbox_state ss ("gl_" +:+ str x)) eqn:Hx.
    + rewrite elem_of_cons, IH. split.
      * intros [->|[? ?]]; [by split; [left|]|by split; [right|]].
      * intros [[->|?] ?]; [by left|by right].
    + rewrite IH. split.
      * intros [? ?]. by split; [right|].
      * intros [[->|?] Hcode]; [congruence|done].
Qed.

(** X7.  When the GL loop gets through with the box of at least one code
    ticked, the final table holds exactly the rows of the category-filtered
    table whose GL code has its box ticked. *)
Theorem ticked_gl_codes_are_kept ss filtered_by_cat final_filtered :
  filter_by_gl ss filtered_by_cat = Ok final_filtered →
  (∃ r, r ∈ filtered_by_cat
        ∧ checkbox_state ss ("gl_" +:+ str (GL_Code r)) = true) →
  ∀ r, r ∈ final_filtered
       ↔ r ∈ filtered_by_cat
         ∧ checkbox_state ss ("gl_" +:+ str (GL_Code r)) = true.
Proof.
  unfold filter_by_gl. intros Hf (r0 & Hr0 & Hticked0) r.
  apply res_bind_Ok in Hf as (all_gls & Hsorted & Hf).
  apply res_bind_Ok in Hf as (selected & Hsel & [= <-]).
  pose proof (gl_checkboxes_selected _ _ _ _ Hsel) as Hin.
  assert (∀ r', r' ∈ filtered_by_cat → GL_Code r' ∈ all_gls) as Hcodes.
  { intros r' Hr'. rewrite (sorted_Ok _ _ Hsorted), elem_of_unique.
    apply list_elem_of_fmap. by exists r'. }
  assert (GL_Code r0 ∈ selected) as Hsel0 by (apply Hin; auto).
  assert (or_all selected all_gls = selected) as ->
    by (destruct selected; [by apply elem_of_nil in Hsel0|done]).
  rewrite elem_of_filter_isin, Hin. split; [tauto|].
  intros [Hr Hticked]. auto.
Qed.

Lemma ticked_gl_codes_are_kept_witness :
  travel_row ∈ [travel_row]
  ↔ travel_row ∈ [travel_row]
    ∧ checkbox_state (Sample.first_visit DashboardHome)
        ("gl_" +:+ str (GL_Code travel_row)) = true.
Proof.
  apply (ticked_gl_codes_are_kept (Sample.first_visit DashboardHome)
           [travel_row] [travel_row]).
  - reflexivity.
  - exists travel_row. split; [left|reflexivity].
Defined.

(** ** A description sheet without categories *)

Section NoCategories.
Context `{Library}.

Lemma category_checkboxes_nil ss prefix df :
  filter_by_category ss prefix [] df = Ok [].
Proof.
  unfold filter_by_category. simpl. f_equal.
  unfold filter_isin. induction df as [|r df IH]; [done|].
  rewrite filter_cons_False; [done|]. by intros ?%isin_true%elem_of_nil.
Qed.

(** X8.  A description sheet with fewer than three columns gives no category
    mapping, so every row is "Uncategorized", there is no category checkbox,
    and the dashboard and the query page work on an empty table: every
    filtered view and both summaries are empty, whatever the dump holds. *)
Theorem no_category_column_empties_the_pages df desc ss c :
  (ncols desc < 3)%nat →
  result (main (Some (Workbook df)) (Some (Workbook desc)) ss) = Ok (Some c) →
  Forall (λ r, Category r = Uncategorized) (processed_data c)
  ∧ all_categories c = []
  ∧ match page_tables c with
    | HomeTables filtered_by_cat final_filtered gl_rows order_rows =>
        filtered_by_cat = [] ∧ final_filtered = []
        ∧ gl_rows = [] ∧ order_rows = []
    | QueryTables filtered_by_cat_query filtered_data =>
        filtered_by_cat_query = []
        ∧ (filtered_data = None ∨ filtered_data = Some [])
    | SettingsTables => radio ss = Settings
    end.
Proof.
  intros Hcols Hc. rewrite main_readable_dump in Hc.
  apply run_bind_Ok in Hc as ([names cats] & Hload & Hc).
  assert (cats = ∅) as ->.
  { destruct (decide (ncols desc < 2)%nat) as [Hshort|Hlong].
    - rewrite load_gl_descriptions_short_sheet in Hload by done.
      by injection Hload as _ <-.
    - rewrite load_gl_descriptions_two_columns in Hload by lia.
      rewrite bool_decide_eq_false_2 in Hload by lia. by injection Hload as _ <-. }
  apply run_bind_Ok in Hc as (c' & Hc' & [= <-]). simpl in Hc'.
  pose proof (pipeline_Ok _ _ _ _ _ Hc') as Hdata.
  apply pipeline_Ok_page in Hc' as [Hcats Hpage].
  assert (Forall (λ r, Category r = Uncategorized) (processed_data c')) as Hall.
  { apply Forall_forall. intros r Hr.
    destruct (process_gl_data_row _ _ _ _ _ Hdata Hr) as [_ ->].
    unfold get_gl_category. by rewrite lookup_empty. }
  assert (all_categories c' = []) as Hnone.
  { apply sorted_Ok in Hcats.
    assert (filter (λ cat, cat ≠ Uncategorized)
                   (unique (Category <$> processed_data c')) = []) as Hfilter.
    { apply elem_of_nil_inv. intros cat [Hne Hcat]%list_elem_of_filter.
      apply elem_of_unique, list_elem_of_fmap in Hcat as (r & -> & Hr).
      rewrite Forall_forall in Hall. by apply Hne, Hall. }
    rewrite Hfilter in Hcats. by apply Permutation_nil_r in Hcats. }
  split; [done|]. split; [done|]. rewrite Hnone in Hpage.
  destruct (radio ss).
  - apply dashboard_home_Ok in Hpage as (fbc & ff & Hfbc & Hff & ->).
    rewrite category_checkboxes_nil in Hfbc. injection Hfbc as <-.
    injection Hff as <-. done.
  - apply query_employee_Ok in Hpage as (fbc & Hfbc & Htables).
    rewrite category_checkboxes_nil in Hfbc. injection Hfbc as <-.
    destruct Htables as [->|(mask & _ & ->)]; [by split; [|left]|].
    split; [done|]. by right.
  - unfold settings in Hpage.
    do 5 apply run_bind_Ok in Hpage as (? & _ & Hpage).
    apply run_bind_Ok in Hpage as (? & _ & Hpage).
    do 3 apply run_bind_Ok in Hpage as (? & _ & Hpage).
    by injection Hpage as <-.
Qed.

End NoCategories.

(** A description sheet that names the code and stops there. *)
Definition names_only : DataFrame :=
  {| ncols := 2; rows := [[Num 4010; Text "Travel Recovery"]] |}.

Definition travel_row_named : txn :=
  {| GL_Code := Num 4010; GL_Description := Text "Travel Recovery";
     Category := Text "Uncategorized"; Order := Num 30102204; Amount := 150050 |}.

Definition names_only_run : computed :=
  {| processed_data := [travel_row_named];
     all_categories := [];
     page_tables := HomeTables [] [] [] [] |}.

Lemma no_category_column_empties_the_pages_witness :
  result (main (H := Sample.plain_and_dots) (Some (Workbook travel_dump))
            (Some (Workbook names_only)) (Sample.first_visit DashboardHome))
  = Ok (Some names_only_run)
  ∧ all_categories names_only_run = [].
Proof.
  split; [reflexivity|].
  apply (no_category_column_empties_the_pages (H := Sample.plain_and_dots)
           travel_dump names_only (Sample.first_visit DashboardHome)
           names_only_run); [simpl; lia|reflexivity].
Defined.

(** ** The shape of the summary by order *)

Lemma order_groups_keys (df : list txn) :
  Order_IO <$> order_groups df
  = (groupby (λ r, present (Order r)) key_le df).*1.
Proof. unfold order_groups. by rewrite <-list_fmap_compose. Qed.

(** X9.  The summary by order has one row for each order of the table and no
    two rows for the same order; a row whose order cell is empty belongs to no
    row of the summary; and the rows stand in descending order of their
    totals. *)
Theorem order_summary_one_row_per_order (df : list txn) :
  NoDup (Order_IO <$> order_summary df)
  ∧ (∀ k, k ∈ Order_IO <$> order_summary df
          ↔ isna k = false ∧ ∃ r, r ∈ df ∧ Order r = k)
  ∧ StronglySorted (λ a b, Total_Amount' b ≤ Total_Amount' a) (order_summary df).
Proof.
  split; [|split; [|apply order_summary_sorted]].
  - unfold order_summary. rewrite sort_by_perm, order_groups_keys.
    apply NoDup_groupby_keys.
  - intros k. unfold order_summary. rewrite sort_by_perm, order_groups_keys.
    rewrite list_elem_of_fmap. split.
    + intros ([k' group] & -> & Hg). simpl.
      apply elem_of_groupby in Hg as [(r & Hr & Hk) _].
      apply present_Some in Hk as [-> Hk]. split; [done|]. by exists r.
    + intros (Hk & r & Hr & <-).
      exists (Order r, filter (λ r', present (Order r') = Some (Order r)) df).
      split; [done|]. apply elem_of_groupby. split; [|done].
      exists r. split; [done|]. by apply present_Some.
Qed.


(** A posting without an order. *)
Definition no_order_posting : txn :=
  {| GL_Code := Num 4010; GL_Description := Text "Travel Recovery";
     Category := Text "Travel"; Order := NaN; Amount := 900 |}.

Example order_summary_loses_900 :
  sum_Z (Amount <$> [travel_row; no_order_posting]) = 150950
  ∧ sum_Z (Total_Amount' <$> order_summary [travel_row; no_order_posting]) = 150050.
Proof. split; reflexivity. Qed.

(** ** Group-by and any column that is summed or counted *)

Section GroupWeights.
Context `{EqDecision K} (key : txn → option K) (w : txn → Z).






End GroupWeights.







Section SummaryByGL.
Context `{Library}.


End SummaryByGL.


(** ** The breakdowns of the query page *)





Section QueryBreakdowns.
Context `{Library}.




(** X14.  An input that does not compile as a regular expression ends the
    search with [re.error], which nothing catches: the page shows neither the
    rows nor a warning. *)
Theorem invalid_pattern_raises ss df cats filtered_by_cat_query :
  filter_by_category ss "query_cat_" cats df = Ok filtered_by_cat_query →
  button ss = true →
  Str.strip (text_input ss) ≠ EmptyString →
  re_compiles (Str.strip (text_input ss)) = false →
  query_employee ss df cats = Run [] (Raise ReError).
Proof.
  intros Hcat Hbutton Hinput Hpat. unfold query_employee.
  rewrite Hcat, Hbutton. cbn -[str_contains].
  rewrite bool_decide_eq_true_2 by done.
  unfold str_contains. by rewrite Hpat.
Qed.

End QueryBreakdowns.




Lemma invalid_pattern_raises_witness :
  query_employee (H := Sample.plain_and_dots) (Sample.searching "(")
    [travel_row] [Text "Travel"]
  = Run [] (Raise ReError).
Proof.
  apply (invalid_pattern_raises (H := Sample.plain_and_dots)
           (Sample.searching "(") [travel_row] [Text "Travel"] [travel_row]);
    [reflexivity|reflexivity|discriminate|reflexivity].
Defined.

(** ** Rows without an order on the query page *)

Section EmptyOrders.
Context `{Library}.


End EmptyOrders.


(** ** The download of the query page *)




Section QueryDownload.
Context `{Library}.


End QueryDownload.
